(** * Sales and restock dashboard (src/1234.py): wide-to-long loading,
    filtering, date clamp and bucketed aggregation.

    The script is a pandas/streamlit program.  Frames are embedded as lists
    of rows, pandas operations as list functions, and the calls to
    streamlit as a log of [st_call]s.

    Conventions of the embedding.
    - A cell of a frame is missing ([NaN], also standing for NaT), an
      int64 number, a float64 number or a text.  A column holds int64
      numbers only as long as no cell of it is missing or fractional;
      otherwise pandas holds it as float64, and the embedding converts its
      cells where pandas does: when the file is read, when the value
      columns are stacked by [melt] and when the join adds missing values.
    - [Num] holds an int64, and int64 arithmetic wraps around at 64 bits.
      float64 numbers are the [spec_float]s of the Standard Library with
      the operations of binary64; a cell holds them in the normal form
      these operations produce, and a missing float is [NaN].
    - Text in a measurement column is outside the model: pandas then holds
      the column as Python objects.
    - A timestamp is a number of nanoseconds since the epoch.
    - Library code whose result is not fixed by the script is a parameter:
      [str.strip] and [str.lower] (which follow the Unicode tables),
      [pd.to_datetime] (which infers a format from the column it is given)
      and the float64 sum of a group (Kahan summation, [F64.sum], in
      current releases; it depends on the order of the rows, which differs
      between releases, see below).  [pd.read_csv] is represented by its
      result.
    - Labels are looked up by first occurrence.  Frames whose labels
      collide after normalisation are handled by pandas in a
      release-dependent way and are not modelled beyond that.
    - The row order produced by [pd.merge] (which sorts the join keys) is
      not modelled: the join lists the rows of the left frame, then the
      unmatched rows of the right frame. *)

From Stdlib Require Import ZArith Lia Ascii String.
From Stdlib Require Import Floats.SpecFloat.
From Stdlib Require OrderedTypeEx.
From stdpp Require Import base decidable option list sorting strings gmap.

Local Open Scope Z_scope.

(** ** Python string operations used by the script *)

Module PyStr.

Definition code (a : ascii) : N := Ascii.N_of_ascii a.

(** [sub in s]. *)
Fixpoint contains (sub s : string) : bool :=
  String.prefix sub s ||
  match s with
  | EmptyString => false
  | String _ s' => contains sub s'
  end.

(** [s.replace(old, new)] for a non-empty [old]: occurrences are replaced
    from left to right and do not overlap.  [skip] counts the characters
    of a matched occurrence still to be passed over. *)
Fixpoint replace_from (skip : nat) (old new s : string) : string :=
  match s with
  | EmptyString => EmptyString
  | String a s' =>
      match skip with
      | S k => replace_from k old new s'
      | O =>
          if String.prefix old s
          then new +:+ replace_from (String.length old - 1) old new s'
          else String a (replace_from 0 old new s')
      end
  end.

Definition replace (old new s : string) : string := replace_from 0 old new s.

(** [s.endswith(suf)]: the script never calls it, the specification
    speaks of name suffixes. *)
Fixpoint endswith (suf s : string) : bool :=
  String.eqb s suf ||
  match s with
  | EmptyString => false
  | String _ s' => endswith suf s'
  end.

End PyStr.

(** ** Numbers *)

(** int64: the integers from -2^63 to 2^63 - 1; results wrap around. *)
Module I64.

Definition wrap (z : Z) : Z := (z + 2 ^ 63) mod 2 ^ 64 - 2 ^ 63.

Definition add (x y : Z) : Z := wrap (x + y).

(** [abs]: the magnitude of -2^63 is not an int64 and wraps to -2^63. *)
Definition abs (x : Z) : Z := wrap (Z.abs x).

(** The sum of a group: the values are added one after the other. *)
Definition sum (l : list Z) : Z := foldl add 0 l.

End I64.

(** float64: binary64 with rounding to nearest, ties to even. *)
Module F64.

Definition prec : Z := 53.
Definition emax : Z := 1024.

(** The float64 nearest to [m * 2^e], and to an integer. *)
Definition dyadic (m e : Z) : spec_float := binary_normalize prec emax m e false.
Definition of_Z (z : Z) : spec_float := dyadic z 0.

Definition zero : spec_float := S754_zero false.

Definition add (x y : spec_float) : spec_float := SFadd prec emax x y.
Definition sub (x y : spec_float) : spec_float := SFsub prec emax x y.

Definition abs (x : spec_float) : spec_float := SFabs x.

Definition is_nan (x : spec_float) : bool :=
  match x with S754_nan => true | _ => false end.

(** The sum of a group as pandas' [group_sum] computes it: the values are
    added one after the other, with a compensation term for the rounding
    error of each addition (Kahan summation); a compensation that is not a
    number is reset. *)
Definition kahan_step (acc : spec_float * spec_float) (val : spec_float)
  : spec_float * spec_float :=
  let '(sumx, compensation) := acc in
  let y := sub val compensation in
  let t := add sumx y in
  let compensation := sub (sub t sumx) y in
  (t, if is_nan compensation then zero else compensation).

Definition sum (l : list spec_float) : spec_float := (foldl kahan_step (zero, zero) l).1.

(** An integer that grows with the number: the order of float64. *)
Definition key (x : spec_float) : Z :=
  match x with
  | S754_zero _ => 0
  | S754_infinity s => if s then - 2 ^ 2200 else 2 ^ 2200
  | S754_nan => 0
  | S754_finite s m e =>
      let v := Z.pos m * 2 ^ (e + 1074) in if s then - v else v
  end.

End F64.

#[global] Instance spec_float_eq_dec : EqDecision spec_float.
Proof. solve_decision. Defined.

(** ** Cells and frames *)

Inductive cell : Type :=
| NaN
| Num (z : Z)
| Flt (x : spec_float)
| Str (s : string).

#[global] Instance cell_eq_dec : EqDecision cell.
Proof. solve_decision. Defined.

Definition isna (c : cell) : Prop := c = NaN.
Definition notna (c : cell) : Prop := c ≠ NaN.

(** The dtype pandas gives a column with these cells. *)
Inductive dtype : Type := int64 | float64 | object.

Definition is_text (c : cell) : bool :=
  match c with Str _ => true | _ => false end.

(** A missing value or a float makes a column of numbers float64. *)
Definition is_float (c : cell) : bool :=
  match c with NaN | Flt _ => true | _ => false end.

Definition dtype_of (col : list cell) : dtype :=
  if existsb is_text col then object
  else if existsb is_float col then float64
  else int64.

(** A cell as a column of dtype [d] holds it: in a float64 column an
    integer is converted. *)
Definition to_float (c : cell) : cell :=
  match c with
  | Num z => Flt (F64.of_Z z)
  | _ => c
  end.

Definition astype (d : dtype) (c : cell) : cell :=
  match d with
  | float64 => to_float c
  | _ => c
  end.

(** A float64 result as a cell: nan is the missing value. *)
Definition cell_of_float (x : spec_float) : cell :=
  match x with
  | S754_nan => NaN
  | _ => Flt x
  end.

(** [fillna(0)] on one cell of a column of dtype [d]. *)
Definition fillna0 (d : dtype) (c : cell) : cell :=
  match c with
  | NaN => match d with object => Num 0 | _ => Flt F64.zero end
  | _ => c
  end.

(** A frame: the header and the rows.  A row shorter than the header
    reads as missing in the absent positions. *)
Record DataFrame : Type := mkFrame {
  columns : list string;
  data : list (list cell)
}.

(** The frame as pandas holds it after [pd.read_csv]: a float that is not
    a number is the missing value, and every column has one dtype. *)
Definition as_read (c : cell) : cell :=
  match c with
  | Flt x => cell_of_float x
  | _ => c
  end.

Definition column_at (j : nat) (rows : list (list cell)) : list cell :=
  (λ row, as_read (nth j row NaN)) <$> rows.

Definition infer_dtypes (df : DataFrame) : DataFrame :=
  {| columns := columns df;
     data := (λ row, imap (λ j c, astype (dtype_of (column_at j (data df))) (as_read c)) row)
               <$> data df |}.

Fixpoint get_loc (label : string) (cols : list string) : option nat :=
  match cols with
  | [] => None
  | c :: cols' => if decide (c = label) then Some O else S <$> get_loc label cols'
  end.

(** [row[label]] in a frame with header [cols]. *)
Definition at_label (cols : list string) (row : list cell) (label : string) : cell :=
  match get_loc label cols with
  | Some i => nth i row NaN
  | None => NaN
  end.

(** [df.dropna(subset=subset)] *)
Definition dropna (subset : list string) (df : DataFrame) : DataFrame :=
  {| columns := columns df;
     data := filter (λ row, Forall (λ c, notna (at_label (columns df) row c)) subset)
                    (data df) |}.

(** A row of a long frame: the identifier values in the order of [id_vars],
    the entry of the [date] column and one measurement. *)
Record melted (D : Type) : Type := mkMelted {
  m_ids : list cell;
  m_date : D;
  m_value : cell
}.
Arguments mkMelted {D} _ _ _.
Arguments m_ids {D} _.
Arguments m_date {D} _.
Arguments m_value {D} _.

(** An identifier as the join, [isin], [unique] and [groupby] take it:
    pandas compares 0.0 and -0.0 as one value, and the embedding holds
    identifiers with one zero. *)
Definition key_cell (c : cell) : cell :=
  match c with
  | Flt (S754_zero _) => Flt F64.zero
  | _ => c
  end.

(** The value columns one after the other, each over all rows. *)
Definition stack (df : DataFrame) (id_vars value_vars : list string) : list (melted string) :=
  flat_map (λ col,
    fmap (λ row, mkMelted (fmap (λ c, key_cell (at_label (columns df) row c)) id_vars) col
                         (at_label (columns df) row col))
        (data df))
    value_vars.

(** [df.melt(id_vars=id_vars, value_vars=value_vars, var_name='date', ...)]:
    the stacked value columns form one column, of their common dtype. *)
Definition melt (df : DataFrame) (id_vars value_vars : list string) : list (melted string) :=
  let long := stack df id_vars value_vars in
  let d := dtype_of (m_value <$> long) in
  (λ r, mkMelted (m_ids r) (m_date r) (astype d (m_value r))) <$> long.

(** A row of the merged frame. *)
Record Row : Type := mkRow {
  ids : list cell;
  date : option Z;
  sales : cell;
  restocks : cell
}.

#[global] Instance Row_eq_dec : EqDecision Row.
Proof. solve_decision. Defined.

(** The join key [required_columns + ['date']]. *)
Definition m_key {D} (r : melted D) : list cell * D := (m_ids r, m_date r).
Definition row_key (r : Row) : list cell * option Z := (ids r, date r).

(** The rows of an outer join: every pair of rows with equal keys, the
    left rows without partner and the right rows without partner; a
    missing side is filled with NaN. *)
Definition join_rows (left right : list (melted (option Z))) : list Row :=
  flat_map (λ l,
    match filter (λ r, m_key r = m_key l) right with
    | [] => [mkRow (m_ids l) (m_date l) (m_value l) NaN]
    | partners => fmap (λ r, mkRow (m_ids l) (m_date l) (m_value l) (m_value r)) partners
    end) left
  ++ fmap (λ r, mkRow (m_ids r) (m_date r) NaN (m_value r))
         (filter (λ r, m_key r ∉ fmap m_key left) right).

(** A function on the two measurement columns of a row. *)
Definition map_metrics (f g : cell → cell) (r : Row) : Row :=
  mkRow (ids r) (date r) (f (sales r)) (g (restocks r)).

(** [pd.merge(left, right, on=ids + ['date'], how='outer')]: a measurement
    column that received a missing value becomes float64. *)
Definition merge_outer (left right : list (melted (option Z))) : list Row :=
  let joined := join_rows left right in
  map_metrics (astype (dtype_of (sales <$> joined)))
              (astype (dtype_of (restocks <$> joined))) <$> joined.

(** A row of an aggregate: the group's title, the left edge of its time
    bin and the summed measurement. *)
Record AggRow : Type := mkAgg {
  a_title : cell;
  a_date : Z;
  a_value : cell
}.

#[global] Instance AggRow_eq_dec : EqDecision AggRow.
Proof. solve_decision. Defined.

(** ** Calls to streamlit *)

Inductive st_call : Type :=
| st_error_read (e : string)
| st_write_raw_columns (cols : list string)
| st_write_normalized_columns (cols : list string)
| st_error_missing_columns (missing : list string)
| st_error_no_sales
| st_error_no_restocks
| st_warning_no_match
| st_subheader (s : string)
| st_plotly_chart (fig : list AggRow)
| st_dataframe (df : list Row).

(** ** load_data *)

Inductive read_csv_result : Type :=
| ReadRaised (e : string)
| ReadOk (df : DataFrame).

Definition required_columns : list string :=
  ["title"; "variation"; "id"; "type"; "country"; "channel"].

Definition missing_columns (df : DataFrame) : list string :=
  filter (λ col, col ∉ columns df) required_columns.

Definition sales_cols (df : DataFrame) : list string :=
  filter (λ col, PyStr.contains "_sales" col) (columns df).

Definition restocks_cols (df : DataFrame) : list string :=
  filter (λ col, PyStr.contains "_restocks" col) (columns df).

Section Load.

(** [str.strip()] and [str.lower()] of Python. *)
Variable str_strip str_lower : string → string.

(** [pd.to_datetime(column, errors='coerce')]: from the column it is
    called on, the reading of one entry of that column, [None] for NaT. *)
Variable to_datetime : list string → string → option Z.

(** [df.columns = df.columns.str.strip().str.lower()] *)
Definition normalize_columns (df : DataFrame) : DataFrame :=
  {| columns := fmap (λ c, str_lower (str_strip c)) (columns df);
     data := data df |}.

(** One family: melt, remove the marker from the column name, parse the
    date column, drop the rows without date. *)
Definition long_frame (df : DataFrame) (value_vars : list string) (marker : string)
  : list (melted (option Z)) :=
  let melted_df := melt df required_columns value_vars in
  let replaced := fmap (λ r, mkMelted (m_ids r) (PyStr.replace marker "" (m_date r)) (m_value r)) melted_df in
  let column := m_date <$> replaced in
  let parsed := fmap (λ r, mkMelted (m_ids r) (to_datetime column (m_date r)) (m_value r)) replaced in
  filter (λ r, is_Some (m_date r)) parsed.

Definition sales_df (df : DataFrame) : list (melted (option Z)) :=
  long_frame df (sales_cols df) "_sales".

Definition restocks_df (df : DataFrame) : list (melted (option Z)) :=
  long_frame df (restocks_cols df) "_restocks".

(** Lines 76-77. *)
Definition fill_metrics (merged_df : list Row) : list Row :=
  map_metrics (fillna0 (dtype_of (sales <$> merged_df)))
              (fillna0 (dtype_of (restocks <$> merged_df))) <$> merged_df.

(** The body of [load_data] after a successful read.  The result is the
    log of streamlit calls and the returned frame; [pd.DataFrame()] is
    the frame without rows. *)
Definition load_frame (raw : DataFrame) : list st_call * list Row :=
  let log1 := [st_write_raw_columns (columns raw)] in
  let df := normalize_columns raw in
  let log2 := log1 ++ [st_write_normalized_columns (columns df)] in
  match missing_columns df with
  | (_ :: _) as missing => (log2 ++ [st_error_missing_columns missing], [])
  | [] =>
      let df := dropna required_columns df in
      match sales_cols df with
      | [] => (log2 ++ [st_error_no_sales], [])
      | _ :: _ =>
          match restocks_cols df with
          | [] => (log2 ++ [st_error_no_restocks], [])
          | _ :: _ =>
              let merged_df := merge_outer (sales_df df) (restocks_df df) in
              (log2, fill_metrics merged_df)
          end
      end
  end.

Definition load_data (read : read_csv_result) : list st_call * list Row :=
  match read with
  | ReadRaised e => ([st_error_read e], [])
  | ReadOk raw => load_frame (infer_dtypes raw)
  end.

End Load.

(** ** Filters *)

Definition filter_fields : list string :=
  ["title"; "variation"; "type"; "country"; "channel"].

(** [df[field]] on one row of the merged frame, for an identifier field. *)
Definition row_get (field : string) (r : Row) : cell :=
  at_label required_columns (ids r) field.

(** [st.session_state.filters[field]].  Line 96 creates the dict with every
    key of [filter_fields] and the script assigns to these keys only, so
    the lookup does not miss; a missing key reads as the empty list. *)
Definition selection (fs : gmap string (list cell)) (field : string) : list cell :=
  default [] (fs !! field).

Definition init_filters : gmap string (list cell) :=
  list_to_map (fmap (λ field, (field, [])) filter_fields).

Definition select_all (fs : gmap string (list cell)) (field : string) (options : list cell)
  : gmap string (list cell) := <[field := options]> fs.

Definition deselect_all (fs : gmap string (list cell)) (field : string)
  : gmap string (list cell) := <[field := []]> fs.

(** [df[df[field].isin(sel)]] *)
Definition isin_rows (field : string) (sel : list cell) (df : list Row) : list Row :=
  filter (λ r, row_get field r ∈ sel) df.

(** One round of the loop of [get_filtered_df]: an empty list is falsy. *)
Definition apply_selection (fs : gmap string (list cell)) (df : list Row) (field : string)
  : list Row :=
  match selection fs field with
  | [] => df
  | (_ :: _) as sel => isin_rows field sel df
  end.

Definition get_filtered_df (merged_df : list Row) (fs : gmap string (list cell)) : list Row :=
  foldl (apply_selection fs) merged_df filter_fields.

(** [df[field].unique()]: the first occurrence of each value, in order. *)
Fixpoint unique {A} `{EqDecision A} (l : list A) : list A :=
  match l with
  | [] => []
  | x :: l' => x :: filter (λ y, y ≠ x) (unique l')
  end.

(** The order [sorted] uses.  Python compares numbers with numbers and
    texts with texts (by code point, which is the byte order of UTF-8);
    a column never mixes them, the other cases only make the order total. *)
(** The order [sorted] uses.  Python compares numbers with numbers and
    texts with texts (by code point, which is the byte order of UTF-8);
    a column never mixes them, the other cases only make the order total. *)
Definition cell_le (a b : cell) : Prop :=
  match a, b with
  | NaN, _ => True
  | Num _, NaN => False
  | Num x, Num y => x ≤ y
  | Num _, _ => True
  | Flt _, (NaN | Num _) => False
  | Flt x, Flt y => F64.key x ≤ F64.key y
  | Flt _, Str _ => True
  | Str s, Str t => String.leb s t
  | Str _, _ => False
  end.

#[global] Instance cell_le_dec : RelDecision cell_le.
Proof. intros [| x | x | s] [| y | y | t]; simpl; apply _. Defined.

Definition get_filter_options (df : list Row) (field : string) : list cell :=
  merge_sort cell_le (unique (fmap (row_get field) df)).

(** Lines 125-129: the merged frame restricted by the selections of the
    other fields. *)
Definition temp_df (merged_df : list Row) (fs : gmap string (list cell)) (field : string)
  : list Row :=
  foldl (λ df other_field,
           if decide (other_field ≠ field) then apply_selection fs df other_field else df)
        merged_df filter_fields.

(** The options offered for [field] under the current selections. *)
Definition offered (merged_df : list Row) (fs : gmap string (list cell)) (field : string)
  : list cell :=
  get_filter_options (temp_df merged_df fs field) field.

(** One round of the sidebar loop (lines 124-152).  [multiselect] stands
    for the user: from the field, the options and the default it gives the
    chosen values. *)
Definition sidebar_step (merged_df : list Row)
    (multiselect : string → list cell → list cell → list cell)
    (fs : gmap string (list cell)) (field : string) : gmap string (list cell) :=
  let options := offered merged_df fs field in
  let current_selection := filter (λ item, item ∈ options) (selection fs field) in
  let fs := <[field := current_selection]> fs in
  let selected := multiselect field options (selection fs field) in
  <[field := selected]> fs.

Definition sidebar (merged_df : list Row)
    (multiselect : string → list cell → list cell → list cell)
    (fs : gmap string (list cell)) : gmap string (list cell) :=
  foldl (sidebar_step merged_df multiselect) fs filter_fields.

(** ** Date range *)

Definition day_ns : Z := 86400000000000.

(** [pd.to_datetime(d)] for a calendar date given as a day number:
    midnight of that day. *)
Definition timestamp_of_day (d : Z) : Z := d * day_ns.

Definition in_range (lo hi : Z) (d : option Z) : bool :=
  match d with
  | Some t => (lo <=? t) && (t <=? hi)
  | None => false
  end.

(** Lines 167-170. *)
Definition clamp (df : list Row) (start_date end_date : Z) : list Row :=
  filter (λ r, in_range (timestamp_of_day start_date) (timestamp_of_day end_date) (date r)) df.

(** ** Aggregation *)

(** [Timestamp.normalize()]: midnight of the same day. *)
Definition normalize (t : Z) : Z := t - t mod day_ns.

Definition dates (df : list Row) : list Z := omap date df.

Definition min_date (df : list Row) : option Z :=
  match dates df with
  | [] => None
  | t :: ts => Some (foldr Z.min t ts)
  end.

(** [merged_df['date'].max()] *)
Definition max_date (df : list Row) : option Z :=
  match dates df with
  | [] => None
  | t :: ts => Some (foldr Z.max t ts)
  end.

(** The calendar day of a timestamp: [date_input] takes the bounds it is
    given as dates. *)
Definition day_of (t : Z) : Z := t `div` day_ns.

(** Lines 156-158: the range [date_input] returns as long as the user has
    not changed it, the days of the least and of the greatest date of the
    merged frame. *)
Definition default_date_range (merged_df : list Row) : option (Z * Z) :=
  match min_date merged_df, max_date merged_df with
  | Some lo, Some hi => Some (day_of lo, day_of hi)
  | _, _ => None
  end.

(** Left edge of the bin of [t] for [pd.Grouper(freq=..D)]: bins are closed
    on the left, labelled by their left edge, and start at [first]. *)
Definition bin_edge (first freq t : Z) : Z := first + (t - first) / freq * freq.

(** Group key of a row; rows without title or date belong to no group. *)
Definition group_key (first freq : Z) (r : Row) : option (cell * Z) :=
  match row_get "title" r, date r with
  | NaN, _ => None
  | _, None => None
  | t, Some d => Some (t, bin_edge first freq d)
  end.

Definition key_le (a b : cell * Z) : Prop :=
  if decide (a.1 = b.1) then a.2 ≤ b.2 else cell_le a.1 b.1.

#[global] Instance key_le_dec : RelDecision key_le.
Proof. intros a b; unfold key_le; destruct (decide (a.1 = b.1)); apply _. Defined.

(** The exact sum of integers. *)
Definition sum_Z (l : list Z) : Z := foldr Z.add 0 l.

Definition group_rows (first freq : Z) (k : cell * Z) (df : list Row) : list Row :=
  filter (λ r, group_key first freq r = Some k) df.

(** The readings of a measurement cell in an int64 and in a float64
    column; a float64 sum skips missing values. *)
Definition int_of (c : cell) : Z :=
  match c with
  | Num z => z
  | _ => 0
  end.

Definition float_of (c : cell) : option spec_float :=
  match c with
  | Num z => Some (F64.of_Z z)
  | Flt x => Some x
  | _ => None
  end.

(** [abs()] on one cell. *)
Definition cell_abs (c : cell) : cell :=
  match c with
  | Num z => Num (I64.abs z)
  | Flt x => Flt (F64.abs x)
  | _ => c
  end.

Section Aggregate.

(** The float64 sum pandas computes for one group from its values in row
    order: [F64.sum] in current releases. *)
Variable float_sum : list spec_float → spec_float.

(** [sum()] of one group of a column of dtype [d].  The sum of a column of
    Python objects is not modelled. *)
Definition series_sum (d : dtype) (vals : list cell) : cell :=
  match d with
  | int64 => Num (I64.sum (int_of <$> vals))
  | float64 => cell_of_float (float_sum (omap float_of vals))
  | object => NaN
  end.

(** [df.groupby(['title', pd.Grouper(key='date', freq=f'{interval_days}D')])
       [value].sum().reset_index()]: the bins start at midnight of the least
    date of [df]; the groups are the keys that occur, in sorted order. *)
Definition groupby_sum (value : Row → cell) (interval_days : Z) (df : list Row) : list AggRow :=
  match min_date df with
  | None => []
  | Some t0 =>
      let first := normalize t0 in
      let freq := interval_days * day_ns in
      let keys := merge_sort key_le (unique (omap (group_key first freq) df)) in
      fmap (λ k, mkAgg k.1 k.2 (series_sum (dtype_of (value <$> df))
                                          (value <$> group_rows first freq k df)))
          keys
  end.

(** [agg.sort_values('date')] *)
Definition date_le (a b : AggRow) : Prop := a_date a ≤ a_date b.

#[global] Instance date_le_dec : RelDecision date_le.
Proof. intros a b; unfold date_le; apply _. Defined.

Definition sort_values_date (agg : list AggRow) : list AggRow :=
  merge_sort date_le agg.

Definition abs_value (a : AggRow) : AggRow :=
  mkAgg (a_title a) (a_date a) (cell_abs (a_value a)).

Definition sales_agg (interval_days : Z) (filtered_df : list Row) : list AggRow :=
  sort_values_date (groupby_sum sales interval_days filtered_df).

Definition restocks_agg (interval_days : Z) (filtered_df : list Row) : list AggRow :=
  sort_values_date (fmap abs_value (groupby_sum restocks interval_days filtered_df)).

(** ** The page *)

Inductive interval : Type := Days7 | Days15 | Days30.

(** [int(interval.split()[0])] *)
Definition interval_days (i : interval) : Z :=
  match i with
  | Days7 => 7
  | Days15 => 15
  | Days30 => 30
  end.

Definition filtered_df (merged_df : list Row) (fs : gmap string (list cell))
    (start_date end_date : Z) : list Row :=
  clamp (get_filtered_df merged_df fs) start_date end_date.

(** Lines 172-201. *)
Definition render (filtered : list Row) (days : Z) : list st_call :=
  match filtered with
  | [] => [st_warning_no_match]
  | _ :: _ =>
      [ st_subheader "销售趋势";
        st_plotly_chart (sales_agg days filtered);
        st_subheader "补货趋势";
        st_plotly_chart (restocks_agg days filtered);
        st_subheader "过滤后的数据";
        st_dataframe filtered ]
  end.

End Aggregate.

Section Script.

Variable str_strip str_lower : string → string.
Variable to_datetime : list string → string → option Z.
Variable float_sum : list spec_float → spec_float.

(** The whole script for one run: [read] is what [pd.read_csv] gives,
    [fs] the selections kept in the session, and [multiselect],
    [start_date], [end_date], [i] what the user enters. *)
Definition script (read : read_csv_result) (fs : gmap string (list cell))
    (multiselect : string → list cell → list cell → list cell)
    (start_date end_date : Z) (i : interval) : list st_call :=
  let '(log, merged_df) := load_data str_strip str_lower to_datetime read in
  match merged_df with
  | [] => log
  | _ :: _ =>
      let fs := sidebar merged_df multiselect fs in
      log ++ render float_sum (filtered_df merged_df fs start_date end_date) (interval_days i)
  end.

End Script.

(** ** Concrete inputs *)

(** What [str.strip] and [str.lower] do to a string of ASCII characters,
    to run the loader on concrete frames whose names are ASCII. *)
Module AsciiStr.

Definition is_space (a : ascii) : bool :=
  ((9 <=? PyStr.code a) && (PyStr.code a <=? 13)
   || (28 <=? PyStr.code a) && (PyStr.code a <=? 32))%N.

Fixpoint lstrip (s : string) : string :=
  match s with
  | EmptyString => EmptyString
  | String a s' => if is_space a then lstrip s' else s
  end.

Fixpoint rstrip (s : string) : string :=
  match s with
  | EmptyString => EmptyString
  | String a s' =>
      match rstrip s' with
      | EmptyString => if is_space a then EmptyString else String a EmptyString
      | t => String a t
      end
  end.

Definition strip (s : string) : string := rstrip (lstrip s).

Definition lower_ascii (a : ascii) : ascii :=
  if ((65 <=? PyStr.code a) && (PyStr.code a <=? 90))%N
  then Ascii.ascii_of_N (PyStr.code a + 32) else a.

Fixpoint lower (s : string) : string :=
  match s with
  | EmptyString => EmptyString
  | String a s' => String (lower_ascii a) (lower s')
  end.

End AsciiStr.

(** A reading of [pd.to_datetime] for tokens of the forms YYYY-MM-DD and
    MM/DD/YYYY, to run the loader on concrete frames.  As pandas does, it
    takes the format of a column from its first entry and reads every
    entry of the column in that format; a column whose first entry has
    neither form is read entry by entry. *)
Module IsoDate.

Definition digit (a : ascii) : option Z :=
  let n := Z.of_N (Ascii.N_of_ascii a) in
  if (48 <=? n) && (n <=? 57) then Some (n - 48) else None.

Definition is_leap (y : Z) : bool :=
  (y mod 4 =? 0) && (negb (y mod 100 =? 0) || (y mod 400 =? 0)).

Definition days_in_month (y m : Z) : Z :=
  if m =? 2 then (if is_leap y then 29 else 28)
  else if (m =? 4) || (m =? 6) || (m =? 9) || (m =? 11) then 30 else 31.

(** Days since 1970-01-01 of a date of the Gregorian calendar. *)
Definition days_from_civil (y m d : Z) : Z :=
  let y' := if m <=? 2 then y - 1 else y in
  let era := y' / 400 in
  let yoe := y' - era * 400 in
  let mp := if 2 <? m then m - 3 else m + 9 in
  let doy := (153 * mp + 2) / 5 + d - 1 in
  let doe := yoe * 365 + yoe / 4 - yoe / 100 + doy in
  era * 146097 + doe - 719468.

Definition midnight (y m d : Z) : option Z :=
  if (1 <=? m) && (m <=? 12) && (1 <=? d) && (d <=? days_in_month y m)
  then Some (days_from_civil y m d * day_ns) else None.

(** YYYY-MM-DD *)
Definition ymd (s : string) : option Z :=
  match s with
  | String y1 (String y2 (String y3 (String y4 (String "-" (String m1 (String m2
      (String "-" (String d1 (String d2 EmptyString))))))))) =>
      a ← digit y1; b ← digit y2; c ← digit y3; e ← digit y4;
      f ← digit m1; g ← digit m2; h ← digit d1; i ← digit d2;
      midnight (1000 * a + 100 * b + 10 * c + e) (10 * f + g) (10 * h + i)
  | _ => None
  end.

(** MM/DD/YYYY *)
Definition mdy (s : string) : option Z :=
  match s with
  | String m1 (String m2 (String "/" (String d1 (String d2 (String "/" (String y1
      (String y2 (String y3 (String y4 EmptyString))))))))) =>
      a ← digit y1; b ← digit y2; c ← digit y3; e ← digit y4;
      f ← digit m1; g ← digit m2; h ← digit d1; i ← digit d2;
      midnight (1000 * a + 100 * b + 10 * c + e) (10 * f + g) (10 * h + i)
  | _ => None
  end.

Definition to_datetime (column : list string) (s : string) : option Z :=
  match column with
  | first :: _ =>
      if decide (is_Some (ymd first)) then ymd s
      else if decide (is_Some (mdy first)) then mdy s
      else from_option Some (mdy s) (ymd s)
  | [] => None
  end.

End IsoDate.

(** The header of a small export, as typed by hand: mixed case and stray
    blanks. *)
Definition sample_header : list string :=
  ["Title"; " variation"; "ID"; "type"; "country "; "channel";
   "2024-01-01_sales"; "2024-01-08_sales"; "2024-01-01_restocks"].

Definition sample_frame : DataFrame :=
  mkFrame sample_header
    [ [Str "A"; Str "v"; Num 1; Str "t"; Str "US"; Str "web"; Num 10; Num 5; Num (-5)];
      [Str "A"; Str "w"; Num 2; Str "t"; Str "US"; Str "web"; Num 1; NaN; Num 2];
      [Str "B"; NaN; Num 3; Str "t"; Str "DE"; Str "web"; Num 4; Num 4; Num 4] ].

(** The same export without the country column. *)
Definition frame_without_country : DataFrame :=
  mkFrame ["title"; "variation"; "id"; "type"; "channel";
           "2024-01-01_sales"; "2024-01-01_restocks"]
    [ [Str "A"; Str "v"; Num 1; Str "t"; Str "web"; Num 10; Num 2] ].

(** An export that lists the same item twice. *)
Definition frame_repeated_item : DataFrame :=
  mkFrame ["title"; "variation"; "id"; "type"; "country"; "channel";
           "2024-01-01_sales"; "2024-01-01_restocks"]
    [ [Str "A"; Str "v"; Num 1; Str "t"; Str "US"; Str "web"; Num 10; Num 2];
      [Str "A"; Str "v"; Num 1; Str "t"; Str "US"; Str "web"; Num 10; Num 2] ].

(** An export whose sales column carries the marker in front of the date. *)
Definition frame_marker_first : DataFrame :=
  mkFrame ["title"; "variation"; "id"; "type"; "country"; "channel";
           "_sales2024-01-02"; "2024-01-02_restocks"]
    [ [Str "A"; Str "v"; Num 1; Str "t"; Str "US"; Str "web"; Num 7; Num 3] ].

(** Two rows of one title in one week, with restocks -5 and +2. *)
Definition restock_pair : list Row :=
  [ mkRow [Str "A"; Str "v"; Num 1; Str "t"; Str "US"; Str "web"]
          (Some 1704067200000000000) (Num 4) (Num (-5));
    mkRow [Str "A"; Str "w"; Num 2; Str "t"; Str "DE"; Str "shop"]
          (Some 1704240000000000000) (Num 6) (Num 2) ].

(** An export whose sales columns are dated in two ways. *)
Definition frame_two_formats : DataFrame :=
  mkFrame ["title"; "variation"; "id"; "type"; "country"; "channel";
           "01/02/2024_sales"; "2024-01-03_sales"; "2024-01-03_restocks"]
    [ [Str "A"; Str "v"; Num 1; Str "t"; Str "US"; Str "web"; Num 10; Num 20; Num 2] ].


(** An export with restocks columns only. *)
Definition frame_without_sales : DataFrame :=
  mkFrame ["title"; "variation"; "id"; "type"; "country"; "channel";
           "2024-01-01_restocks"]
    [ [Str "A"; Str "v"; Num 1; Str "t"; Str "US"; Str "web"; Num 2] ].

(** An export in which no row has all its identifiers. *)
Definition frame_without_identity : DataFrame :=
  mkFrame ["title"; "variation"; "id"; "type"; "country"; "channel";
           "2024-01-01_sales"; "2024-01-01_restocks"]
    [ [Str "A"; NaN; Num 1; Str "t"; Str "US"; Str "web"; Num 10; Num 2];
      [NaN; Str "v"; Num 2; Str "t"; Str "US"; Str "web"; Num 3; Num 1] ].

(** ** Notions used in the statements *)

(** The series and bucket an aggregate row stands for. *)
Definition agg_key (a : AggRow) : cell * Z := (a_title a, a_date a).

(** Whether a character occurs in a string. *)
Fixpoint has_char (c : ascii) (s : string) : bool :=
  match s with
  | EmptyString => false
  | String a s' => Ascii.eqb a c || has_char c s'
  end.

(** A row without missing value: every identifier, the date and both
    measurements are present. *)
Definition complete (r : Row) : Prop :=
  (∀ c, c ∈ required_columns → notna (row_get c r)) ∧
  is_Some (date r) ∧ notna (sales r) ∧ notna (restocks r).

(** The identifier values of a row of a wide frame. *)
Definition id_tuple (df : DataFrame) (row : list cell) : list cell :=
  (λ c, key_cell (at_label (columns df) row c)) <$> required_columns.

(** The [date] column of one family before it is parsed: for every value
    column, in order, its name without the marker, once per row. *)
Definition date_column (df : DataFrame) (value_vars : list string) (marker : string)
  : list string :=
  (λ r, PyStr.replace marker "" (m_date r)) <$> melt df required_columns value_vars.

(** A cell as a measurement column of dtype [d] of the returned frame holds
    it: converted to the dtype, with 0 for an empty cell. *)
Definition held (d : dtype) (c : cell) : cell := fillna0 d (astype d c).

(** The dtype of the measurement column of one family. *)
Definition value_dtype (df : DataFrame) (value_vars : list string) : dtype :=
  dtype_of (m_value <$> stack df required_columns value_vars).

(** The dates that the columns of one family stand for, as entries of the
    family's date column. *)
Definition parsed_dates (to_datetime : list string → string → option Z) (marker : string)
    (df : DataFrame) (cols : list string) : list Z :=
  omap (λ col, to_datetime (date_column df cols marker) (PyStr.replace marker "" col)) cols.

(** A row passes the selection of a field when nothing is selected for the
    field or its value is among the selected ones. *)
Definition passes (fs : gmap string (list cell)) (r : Row) (field : string) : Prop :=
  selection fs field = [] ∨ row_get field r ∈ selection fs field.

(** The row with another entry in the [id] column, the third identifier. *)
Definition with_id (v : cell) (r : Row) : Row :=
  mkRow (<[2%nat := v]> (ids r)) (date r) (sales r) (restocks r).

(** The rows of one series in one time bucket: the title is [title] and the
    date lies in the interval from [lo], inclusive, to [lo + width],
    exclusive. *)
Definition in_bucket (title : cell) (lo width : Z) (r : Row) : Prop :=
  row_get "title" r = title ∧
  match date r with
  | Some d => lo ≤ d < lo + width
  | None => False
  end.

#[global] Instance in_bucket_dec title lo width r : Decision (in_bucket title lo width r).
Proof. unfold in_bucket. destruct (date r); apply _. Defined.

(** * Properties *)

(** ** The model on the sample export *)

Example strip_lower_sample :
  (λ c, AsciiStr.lower (AsciiStr.strip c)) <$> [" Title"; "country "; "ID"; "2024-01-01_Sales"] =
  ["title"; "country"; "id"; "2024-01-01_sales"].
Proof. reflexivity. Qed.

Example replace_sample :
  PyStr.replace "_sales" "" "2024-01-01_sales" = "2024-01-01" ∧
  PyStr.replace "_sales" "" "2024_sales-01-01_sales" = "2024-01-01" ∧
  PyStr.replace "aa" "b" "aaaaa" = "bba".
Proof. repeat split. Qed.

Example to_datetime_sample :
  IsoDate.to_datetime ["2024-01-01"] "2024-01-01" = Some (19723 * day_ns) ∧
  IsoDate.to_datetime ["2024-01-01"] "2024-02-30" = None ∧
  IsoDate.to_datetime ["2024-01-01"] "01/02/2024" = None ∧
  IsoDate.to_datetime ["01/02/2024"] "01/02/2024" = Some (19724 * day_ns) ∧
  IsoDate.to_datetime ["01/02/2024"] "2024-01-01" = None ∧
  IsoDate.to_datetime ["total"] "total" = None.
Proof. repeat split. Qed.

Example int64_sample :
  I64.sum [2 ^ 62; 2 ^ 62] = - 2 ^ 63 ∧
  I64.abs (- 2 ^ 63) = - 2 ^ 63 ∧
  I64.abs (I64.sum [-5; 2]) = 3.
Proof. repeat split. Qed.

Example float64_sample :
  F64.add (F64.of_Z (2 ^ 53)) (F64.of_Z 1) = F64.of_Z (2 ^ 53) ∧
  F64.add (F64.dyadic 1 (-1)) (F64.dyadic 1 (-1)) = F64.of_Z 1 ∧
  F64.abs (F64.dyadic (-11) (-1)) = F64.dyadic 11 (-1) ∧
  F64.sum [F64.of_Z (2 ^ 53); F64.of_Z 1; F64.of_Z 1] = F64.of_Z (2 ^ 53 + 2) ∧
  F64.sum [F64.dyadic 3 (-1); F64.dyadic (-5) (-2)] = F64.dyadic 1 (-2) ∧
  F64.sum [] = F64.zero.
Proof. repeat split. Qed.

(** The row without variation is dropped; the item without sales on the
    second date gets 0, and both items get 0 restocks there.  The second
    sales column has an empty cell and the join leaves restocks open, so
    both measurements are float64. *)
Example load_data_sample :
  load_data AsciiStr.strip AsciiStr.lower IsoDate.to_datetime (ReadOk sample_frame) =
  ([st_write_raw_columns sample_header;
    st_write_normalized_columns
      ["title"; "variation"; "id"; "type"; "country"; "channel";
       "2024-01-01_sales"; "2024-01-08_sales"; "2024-01-01_restocks"]],
   [mkRow [Str "A"; Str "v"; Num 1; Str "t"; Str "US"; Str "web"]
          (Some 1704067200000000000) (Flt (F64.of_Z 10)) (Flt (F64.of_Z (-5)));
    mkRow [Str "A"; Str "w"; Num 2; Str "t"; Str "US"; Str "web"]
          (Some 1704067200000000000) (Flt (F64.of_Z 1)) (Flt (F64.of_Z 2));
    mkRow [Str "A"; Str "v"; Num 1; Str "t"; Str "US"; Str "web"]
          (Some 1704672000000000000) (Flt (F64.of_Z 5)) (Flt F64.zero);
    mkRow [Str "A"; Str "w"; Num 2; Str "t"; Str "US"; Str "web"]
          (Some 1704672000000000000) (Flt F64.zero) (Flt F64.zero)]).
Proof. vm_compute. reflexivity. Qed.

(** Sales 10 on 2024-01-01 and 5 on 2024-01-08 fall into two weekly
    buckets. *)
Example sales_agg_sample :
  let merged_df := (load_data AsciiStr.strip AsciiStr.lower IsoDate.to_datetime (ReadOk sample_frame)).2 in
  sales_agg F64.sum 7 (get_filtered_df merged_df (<["variation" := [Str "v"]]> init_filters)) =
  [mkAgg (Str "A") 1704067200000000000 (Flt (F64.of_Z 10));
   mkAgg (Str "A") 1704672000000000000 (Flt (F64.of_Z 5))].
Proof. vm_compute. reflexivity. Qed.

(** A selection that is no longer among the options is pruned by the
    sidebar before it is used. *)
Example sidebar_prunes_sample :
  let merged_df := (load_data AsciiStr.strip AsciiStr.lower IsoDate.to_datetime (ReadOk sample_frame)).2 in
  selection (sidebar merged_df (λ _ _ default, default)
                     (<["title" := [Str "Z"; Str "A"]]> init_filters)) "title" = [Str "A"].
Proof. vm_compute. reflexivity. Qed.

(** ** Facts about lists, labels and the join *)

Section ListFacts.
Context {A : Type} `{EqDecision A}.

Lemma elem_of_unique (l : list A) (x : A) : x ∈ unique l ↔ x ∈ l.
Proof.
  induction l as [|y l IH]; simpl; [done|].
  rewrite !elem_of_cons, list_elem_of_filter, IH.
  destruct (decide (x = y)); naive_solver.
Qed.

Lemma NoDup_unique (l : list A) : NoDup (unique l).
Proof.
  induction l as [|y l IH]; simpl; constructor.
  - rewrite list_elem_of_filter. naive_solver.
  - by apply NoDup_filter.
Qed.
End ListFacts.

Lemma elem_of_flat_map {A B} (f : A → list B) (l : list A) (y : B) :
  y ∈ flat_map f l ↔ ∃ x, x ∈ l ∧ y ∈ f x.
Proof.
  rewrite list_elem_of_In, in_flat_map.
  split; intros (x & Hx & Hy); exists x; by rewrite ?list_elem_of_In in *.
Qed.

(** Reading a label out of a row that was built by reading every label of
    the header. *)
Lemma at_label_fmap (f : string → cell) (hdr : list string) (c : string) :
  c ∈ hdr → at_label hdr (f <$> hdr) c = f c.
Proof.
  unfold at_label. induction hdr as [|h hdr IH]; intros Hc.
  - by apply elem_of_nil in Hc.
  - simpl. destruct (decide (h = c)) as [->|Hne]; [done|].
    apply elem_of_cons in Hc as [->|Hc]; [done|].
    specialize (IH Hc). destruct (get_loc c hdr); simpl; [done|].
    exact IH.
Qed.

Lemma dropna_elem (subset : list string) (df : DataFrame) (row : list cell) :
  row ∈ data (dropna subset df) ↔
  row ∈ data df ∧ ∀ c, c ∈ subset → notna (at_label (columns df) row c).
Proof.
  unfold dropna; simpl. rewrite list_elem_of_filter, Forall_forall. tauto.
Qed.

Lemma join_rows_elem (left right : list (melted (option Z))) (x : Row) :
  x ∈ join_rows left right ↔
  (∃ l r, l ∈ left ∧ r ∈ right ∧ m_key r = m_key l ∧
          x = mkRow (m_ids l) (m_date l) (m_value l) (m_value r))
  ∨ (∃ l, l ∈ left ∧ (∀ r, r ∈ right → m_key r ≠ m_key l) ∧
          x = mkRow (m_ids l) (m_date l) (m_value l) NaN)
  ∨ (∃ r, r ∈ right ∧ (m_key r ∉ m_key <$> left) ∧
          x = mkRow (m_ids r) (m_date r) NaN (m_value r)).
Proof.
  unfold join_rows. rewrite elem_of_app, elem_of_flat_map, list_elem_of_fmap.
  split.
  - intros [(l & Hl & Hx) | (r & -> & Hr)].
    + destruct (filter (λ r, m_key r = m_key l) right) as [|p ps] eqn:E.
      * apply list_elem_of_singleton in Hx. right; left.
        exists l; split; [done|]; split; [|done].
        intros r Hr Hk.
        assert (r ∈ filter (λ r, m_key r = m_key l) right) as Hin
          by (by apply list_elem_of_filter).
        rewrite E in Hin. by apply elem_of_nil in Hin.
      * rewrite <- E in Hx. apply list_elem_of_fmap in Hx as (r & -> & Hr).
        apply list_elem_of_filter in Hr as [Hk Hr]. left. by exists l, r.
    + apply list_elem_of_filter in Hr as [Hk Hr]. right; right. by exists r.
  - intros [(l & r & Hl & Hr & Hk & ->) | [(l & Hl & Hno & ->) | (r & Hr & Hk & ->)]].
    + left. exists l; split; [done|].
      assert (r ∈ filter (λ r, m_key r = m_key l) right) as Hin
        by (by apply list_elem_of_filter).
      destruct (filter (λ r, m_key r = m_key l) right) as [|p ps] eqn:E.
      * by apply elem_of_nil in Hin.
      * apply list_elem_of_fmap. by exists r.
    + left. exists l; split; [done|].
      destruct (filter (λ r, m_key r = m_key l) right) as [|p ps] eqn:E.
      * by apply list_elem_of_singleton.
      * assert (p ∈ filter (λ r, m_key r = m_key l) right) as Hin
          by (rewrite E; by left).
        apply list_elem_of_filter in Hin as [Hk Hp]. by destruct (Hno p).
    + right. exists r; split; [done|]. by apply list_elem_of_filter.
Qed.

(** ** Dtypes *)

Lemma key_cell_notna (c : cell) : notna c → notna (key_cell c).
Proof. by destruct c as [| |[]|]. Qed.

Lemma to_float_notna (c : cell) : notna c → notna (to_float c).
Proof. by destruct c. Qed.

Lemma astype_notna (d : dtype) (c : cell) : notna c → notna (astype d c).
Proof. destruct d; simpl; auto using to_float_notna. Qed.

Lemma fillna0_notna (d : dtype) (c : cell) : notna (fillna0 d c).
Proof. by destruct c, d. Qed.

Lemma to_float_idemp (c : cell) : to_float (to_float c) = to_float c.
Proof. by destruct c. Qed.

Lemma map_metrics_keys (f g : cell → cell) (l : list Row) :
  row_key <$> (map_metrics f g <$> l) = row_key <$> l.
Proof. rewrite <- list_fmap_compose. by apply list_fmap_ext. Qed.

Lemma merge_outer_keys_eq (left right : list (melted (option Z))) :
  row_key <$> merge_outer left right = row_key <$> join_rows left right.
Proof. apply map_metrics_keys. Qed.

Lemma fill_metrics_keys (l : list Row) : row_key <$> fill_metrics l = row_key <$> l.
Proof. apply map_metrics_keys. Qed.

(** A row of the join after the conversions of the join and of
    [fillna]: the keys are kept and no measurement is missing. *)
Lemma fill_merge_elem (left right : list (melted (option Z))) (x : Row) :
  x ∈ fill_metrics (merge_outer left right) →
  ∃ y, y ∈ join_rows left right ∧ ids x = ids y ∧ date x = date y ∧
       notna (sales x) ∧ notna (restocks x).
Proof.
  unfold fill_metrics, merge_outer.
  intros (z & -> & (y & -> & Hy)%list_elem_of_fmap)%list_elem_of_fmap.
  exists y. repeat split; simpl; auto using fillna0_notna.
Qed.

Section LoadFacts.
Variable str_strip str_lower : string → string.
Variable to_datetime : list string → string → option Z.

#[local] Arguments required_columns : simpl never.

Lemma stack_elem (df : DataFrame) (id_vars value_vars : list string) (r : melted string) :
  r ∈ stack df id_vars value_vars ↔
  ∃ col row, col ∈ value_vars ∧ row ∈ data df ∧
    r = mkMelted ((λ c, key_cell (at_label (columns df) row c)) <$> id_vars) col
          (at_label (columns df) row col).
Proof.
  unfold stack. rewrite elem_of_flat_map. split.
  - intros (col & Hcol & (row & -> & Hrow)%list_elem_of_fmap). by exists col, row.
  - intros (col & row & Hcol & Hrow & ->). exists col; split; [done|].
    apply list_elem_of_fmap. by exists row.
Qed.

Lemma date_column_eq (df : DataFrame) (value_vars : list string) (marker : string) :
  m_date <$> ((λ r, mkMelted (m_ids r) (PyStr.replace marker "" (m_date r)) (m_value r))
                <$> melt df required_columns value_vars)
  = date_column df value_vars marker.
Proof. unfold date_column. rewrite <- list_fmap_compose. by apply list_fmap_ext. Qed.

(** The long frame of one family, column by column: a column whose name,
    with the marker removed, is read as a date gives one row per row of
    the frame, any other column none. *)
Lemma long_frame_flat (df : DataFrame) (value_vars : list string) (marker : string) :
  long_frame to_datetime df value_vars marker =
  flat_map (λ col,
    match to_datetime (date_column df value_vars marker) (PyStr.replace marker "" col) with
    | Some t => (λ row, mkMelted (id_tuple df row) (Some t)
                          (astype (value_dtype df value_vars) (at_label (columns df) row col)))
                  <$> data df
    | None => []
    end) value_vars.
Proof.
  unfold long_frame. cbv zeta. rewrite date_column_eq.
  generalize (date_column df value_vars marker) as column.
  unfold melt. cbv zeta. fold (value_dtype df value_vars).
  generalize (value_dtype df value_vars) as d.
  intros d column. unfold stack.
  induction value_vars as [|col vars IH]; cbn [flat_map]; [done|].
  rewrite !fmap_app, filter_app, IH. f_equal.
  generalize (data df) as rows. intros rows.
  induction rows as [|row rows IHrows]; rewrite ?fmap_cons.
  - by destruct (to_datetime _ _).
  - rewrite filter_cons; cbn [m_date m_ids m_value].
    destruct (to_datetime column (PyStr.replace marker "" col)) as [t|] eqn:Ht.
    + destruct (decide (is_Some (Some t))) as [_|[]]; [|by eexists].
      rewrite fmap_cons. by rewrite IHrows.
    + destruct (decide (is_Some (@None Z))) as [[? [=]]|_]. exact IHrows.
Qed.

(** The rows of one long frame: one per value column whose name, with the
    marker removed, parses, and per row of the frame. *)
Lemma long_frame_elem (df : DataFrame) (value_vars : list string) (marker : string)
    (r : melted (option Z)) :
  r ∈ long_frame to_datetime df value_vars marker ↔
  ∃ col row t, col ∈ value_vars ∧ row ∈ data df ∧
    to_datetime (date_column df value_vars marker) (PyStr.replace marker "" col) = Some t ∧
    r = mkMelted (id_tuple df row) (Some t)
                 (astype (value_dtype df value_vars) (at_label (columns df) row col)).
Proof.
  rewrite long_frame_flat, elem_of_flat_map. split.
  - intros (col & Hcol & Hr).
    destruct (to_datetime _ _) as [t|] eqn:Ht; [|by apply elem_of_nil in Hr].
    apply list_elem_of_fmap in Hr as (row & -> & Hrow). by exists col, row, t.
  - intros (col & row & t & Hcol & Hrow & Ht & ->). exists col; split; [done|].
    rewrite Ht. apply list_elem_of_fmap. by exists row.
Qed.

Lemma long_frame_dropna (df : DataFrame) (value_vars : list string) (marker : string)
    (r : melted (option Z)) :
  r ∈ long_frame to_datetime (dropna required_columns df) value_vars marker →
  (∀ c, c ∈ required_columns → notna (at_label required_columns (m_ids r) c)) ∧
  is_Some (m_date r).
Proof.
  intros (col & row & t & _ & Hrow & _ & ->)%long_frame_elem.
  apply dropna_elem in Hrow as [_ Hrow]. cbn [m_ids m_date columns dropna].
  split; [|by eexists].
  intros c Hc. unfold id_tuple.
  rewrite (at_label_fmap (λ c, key_cell (at_label (columns df) row c))) by done.
  apply key_cell_notna. by apply Hrow.
Qed.

Lemma merged_complete (df : DataFrame) (r : Row) :
  r ∈ fill_metrics (merge_outer (sales_df to_datetime (dropna required_columns df))
                                (restocks_df to_datetime (dropna required_columns df))) →
  complete r.
Proof.
  intros (x & Hx & Hi & Hd & Hs & Hr)%fill_merge_elem.
  unfold complete, row_get. rewrite Hi, Hd.
  apply join_rows_elem in Hx
    as [(l & r' & Hl & _ & _ & ->) | [(l & Hl & _ & ->) | (r' & Hr' & _ & ->)]]; simpl;
    first [apply long_frame_dropna in Hl as [Hi' Hd']
          |apply long_frame_dropna in Hr' as [Hi' Hd']];
    repeat split; auto.
Qed.

Lemma load_frame_complete (raw : DataFrame) (r : Row) :
  r ∈ (load_frame str_strip str_lower to_datetime raw).2 → complete r.
Proof.
  unfold load_frame.
  destruct (missing_columns _); simpl; [|by intros ?%elem_of_nil].
  destruct (sales_cols _); simpl; [by intros ?%elem_of_nil|].
  destruct (restocks_cols _); simpl; [by intros ?%elem_of_nil|].
  apply merged_complete.
Qed.

Lemma load_data_complete (read : read_csv_result) (r : Row) :
  r ∈ (load_data str_strip str_lower to_datetime read).2 → complete r.
Proof.
  destruct read as [e|raw]; simpl; [by intros ?%elem_of_nil|].
  apply load_frame_complete.
Qed.

End LoadFacts.

(** ** Keys of the long frames and of the join *)

Section KeyFacts.
Variable str_strip str_lower : string → string.
Variable to_datetime : list string → string → option Z.

#[local] Arguments required_columns : simpl never.

Lemma long_frame_keys (df : DataFrame) (value_vars : list string) (marker : string) :
  NoDup (id_tuple df <$> data df) →
  NoDup (parsed_dates to_datetime marker df value_vars) →
  NoDup (m_key <$> long_frame to_datetime df value_vars marker).
Proof.
  intros Hrows. rewrite long_frame_flat. unfold parsed_dates.
  generalize (date_column df value_vars marker) as column.
  generalize (value_dtype df value_vars) as d. intros d column.
  induction value_vars as [|col vars IH]; simpl; [constructor|].
  intros Hcols. rewrite fmap_app.
  destruct (to_datetime column (PyStr.replace marker "" col)) as [t|] eqn:Ht; simpl.
  - apply NoDup_cons in Hcols as [Ht' Hcols].
    apply NoDup_app. split; [|split; [|by apply IH]].
    + rewrite <- list_fmap_compose.
      replace (m_key ∘ _) with ((λ i : list cell, (i, Some t)) ∘ id_tuple df)
        by reflexivity.
      rewrite (list_fmap_compose (id_tuple df) (λ i : list cell, (i, Some t))).
      apply NoDup_fmap_2; [|done].
      by intros ?? [=].
    + intros k (x & -> & (row & -> & _)%list_elem_of_fmap)%list_elem_of_fmap.
      intros (y & Hk & (col' & Hcol' & Hy)%elem_of_flat_map)%list_elem_of_fmap.
      apply Ht'. apply list_elem_of_omap. exists col'; split; [done|].
      destruct (to_datetime column (PyStr.replace marker "" col')) as [t'|];
        [|by apply elem_of_nil in Hy].
      apply list_elem_of_fmap in Hy as (row' & -> & _).
      apply (f_equal snd) in Hk. simpl in Hk. congruence.
  - by apply IH.
Qed.

Lemma partners_at_most_one (right : list (melted (option Z))) (k : list cell * option Z) :
  NoDup (m_key <$> right) →
  filter (λ r, m_key r = k) right = [] ∨
  ∃ r, filter (λ r, m_key r = k) right = [r] ∧ m_key r = k.
Proof.
  induction right as [|r rs IH]; simpl; [by left|].
  intros [Hr Hrs]%NoDup_cons. rewrite filter_cons.
  destruct (decide (m_key r = k)) as [Hk|Hk]; [|by apply IH].
  right. exists r; split; [|done]. f_equal.
  destruct (filter (λ r, m_key r = k) rs) as [|p ps] eqn:E; [done|].
  assert (p ∈ filter (λ r, m_key r = k) rs) as [Hp Hin]%list_elem_of_filter
    by (rewrite E; by left).
  destruct Hr. apply list_elem_of_fmap. exists p. by rewrite Hk, Hp.
Qed.

Lemma NoDup_fmap_filter {A B} (f : A → B) (P : A → Prop) `{∀ x, Decision (P x)}
    (l : list A) :
  NoDup (f <$> l) → NoDup (f <$> filter P l).
Proof.
  intros Hl. eapply sublist_NoDup; [exact Hl|].
  apply fmap_sublist, sublist_filter.
Qed.

Lemma join_rows_left_keys (left right : list (melted (option Z))) :
  NoDup (m_key <$> right) →
  row_key <$> flat_map (λ l,
    match filter (λ r, m_key r = m_key l) right with
    | [] => [mkRow (m_ids l) (m_date l) (m_value l) NaN]
    | partners => (λ r, mkRow (m_ids l) (m_date l) (m_value l) (m_value r)) <$> partners
    end) left
  = m_key <$> left.
Proof.
  intros Hright. induction left as [|l ls IH]; [done|].
  cbn [flat_map]. rewrite fmap_app, IH, fmap_cons.
  change (m_key l :: (m_key <$> ls)) with ([m_key l] ++ (m_key <$> ls)). f_equal.
  destruct (partners_at_most_one right (m_key l) Hright) as [->|(r & -> & _)]; done.
Qed.

Lemma merge_outer_keys (left right : list (melted (option Z))) :
  NoDup (m_key <$> left) → NoDup (m_key <$> right) →
  NoDup (row_key <$> merge_outer left right).
Proof.
  intros Hleft Hright. rewrite merge_outer_keys_eq. unfold join_rows.
  rewrite fmap_app, join_rows_left_keys by done.
  rewrite <- list_fmap_compose.
  replace (row_key ∘ _) with (@m_key (option Z)) by reflexivity.
  apply NoDup_app. split; [done|]. split; [|by apply NoDup_fmap_filter].
  intros k Hk (r & -> & [Hr _]%list_elem_of_filter)%list_elem_of_fmap. done.
Qed.

Lemma load_frame_keys (raw : DataFrame) :
  let df := dropna required_columns (normalize_columns str_strip str_lower raw) in
  NoDup (id_tuple df <$> data df) →
  NoDup (parsed_dates to_datetime "_sales" df (sales_cols df)) →
  NoDup (parsed_dates to_datetime "_restocks" df (restocks_cols df)) →
  NoDup (row_key <$> (load_frame str_strip str_lower to_datetime raw).2).
Proof.
  intros df Hrows Hs Hr. unfold load_frame.
  destruct (missing_columns _); simpl; [|constructor].
  fold df.
  destruct (sales_cols df) eqn:Es; simpl; [constructor|].
  destruct (restocks_cols df) eqn:Er; simpl; [constructor|].
  rewrite fill_metrics_keys. unfold sales_df, restocks_df.
  apply merge_outer_keys; apply long_frame_keys; by rewrite ?Es, ?Er.
Qed.

End KeyFacts.

(** ** Loading: the claims about [load_data] *)

Lemma prefix_refl (s : string) : String.prefix s s = true.
Proof.
  induction s as [|a s IH]; simpl; [done|].
  by destruct (ascii_dec a a).
Qed.

Lemma endswith_contains (suf s : string) :
  PyStr.endswith suf s = true → PyStr.contains suf s = true.
Proof.
  induction s as [|a s IH]; cbn [PyStr.endswith PyStr.contains].
  - destruct suf; [done|by intros [=]].
  - intros [Heq|Hend]%orb_true_iff; apply orb_true_iff.
    + apply String.eqb_eq in Heq. left. rewrite <- Heq. apply prefix_refl.
    + right. by apply IH.
Qed.

(** C1.  Every row of the frame returned by [load_data], whatever was read,
    has a value in each of the six identifier columns, has a date, and has a
    value in the sales and in the restocks column. *)
Theorem load_data_no_null (str_strip str_lower : string → string)
    (to_datetime : list string → string → option Z) (read : read_csv_result)
    (r : Row) :
  r ∈ (load_data str_strip str_lower to_datetime read).2 →
  (∀ c, c ∈ required_columns → row_get c r ≠ NaN) ∧
  date r ≠ None ∧ sales r ≠ NaN ∧ restocks r ≠ NaN.
Proof.
  intros (Hi & [t Ht] & Hs & Hr)%load_data_complete.
  repeat split; [exact Hi|by rewrite Ht|exact Hs|exact Hr].
Qed.

Lemma load_data_no_null_witness :
  let r := mkRow [Str "A"; Str "w"; Num 2; Str "t"; Str "US"; Str "web"]
                 (Some 1704672000000000000) (Flt F64.zero) (Flt F64.zero) in
  r ∈ (load_data AsciiStr.strip AsciiStr.lower IsoDate.to_datetime (ReadOk sample_frame)).2 ∧
  sales r ≠ NaN ∧ restocks r ≠ NaN.
Proof.
  intros r.
  assert (r ∈ (load_data AsciiStr.strip AsciiStr.lower IsoDate.to_datetime (ReadOk sample_frame)).2) as Hin.
  { apply (bool_decide_unpack _). vm_compute. exact I. }
  split; [exact Hin|].
  apply (load_data_no_null AsciiStr.strip AsciiStr.lower IsoDate.to_datetime
           (ReadOk sample_frame) r Hin).
Defined.

(** C2, as the code has it.  When the rows kept from the input carry
    pairwise different identifier tuples and, within each family, the columns
    that parse stand for pairwise different dates, the frame returned by
    [load_data] holds at most one row per identifier tuple and date. *)
Theorem load_data_unique_keys (str_strip str_lower : string → string)
    (to_datetime : list string → string → option Z) (raw : DataFrame) :
  let df := dropna required_columns (normalize_columns str_strip str_lower (infer_dtypes raw)) in
  NoDup (id_tuple df <$> data df) →
  NoDup (parsed_dates to_datetime "_sales" df (sales_cols df)) →
  NoDup (parsed_dates to_datetime "_restocks" df (restocks_cols df)) →
  NoDup (row_key <$> (load_data str_strip str_lower to_datetime (ReadOk raw)).2).
Proof. apply (load_frame_keys str_strip str_lower to_datetime (infer_dtypes raw)). Qed.

Lemma load_data_unique_keys_witness :
  NoDup (row_key <$> (load_data AsciiStr.strip AsciiStr.lower IsoDate.to_datetime (ReadOk sample_frame)).2).
Proof.
  apply (load_data_unique_keys AsciiStr.strip AsciiStr.lower IsoDate.to_datetime sample_frame);
    apply (bool_decide_unpack _); vm_compute; exact I.
Defined.

(** C2 as stated fails: an export that lists one item twice is joined row by
    row, and the returned frame repeats the key. *)
Lemma load_data_repeats_key :
  ¬ NoDup (row_key <$> (load_data AsciiStr.strip AsciiStr.lower IsoDate.to_datetime (ReadOk frame_repeated_item)).2).
Proof. apply (bool_decide_eq_false_1 _). vm_compute. reflexivity. Qed.

(** The measurements of an export without gaps stay int64. *)
Example load_data_repeated_item :
  (load_data AsciiStr.strip AsciiStr.lower IsoDate.to_datetime (ReadOk frame_repeated_item)).2 =
  replicate 4 (mkRow [Str "A"; Str "v"; Num 1; Str "t"; Str "US"; Str "web"]
                     (Some 1704067200000000000) (Num 10) (Num 2)).
Proof. vm_compute. reflexivity. Qed.

(** C3, as the code has it.  A column belongs to the sales family exactly
    when its name contains [_sales], to the restocks family exactly when it
    contains [_restocks]; a name ending in the marker is such a name.  The
    rows of a family are, for each of its columns whose name with every
    occurrence of the marker removed is read as a date among the names of
    that family, the rows of the frame under that date, in the order of
    the columns and of the rows and with the measurement in the dtype of
    the family; columns that are not read as a date contribute no row, and
    nothing is reported for them. *)
Theorem families_by_marker (str_strip str_lower : string → string)
    (to_datetime : list string → string → option Z) (raw : DataFrame) :
  let df := dropna required_columns (normalize_columns str_strip str_lower (infer_dtypes raw)) in
  (∀ col, col ∈ sales_cols df ↔
          col ∈ columns (normalize_columns str_strip str_lower raw) ∧ PyStr.contains "_sales" col = true) ∧
  (∀ col, col ∈ restocks_cols df ↔
          col ∈ columns (normalize_columns str_strip str_lower raw) ∧ PyStr.contains "_restocks" col = true) ∧
  (∀ col, PyStr.endswith "_sales" col = true → PyStr.contains "_sales" col = true) ∧
  (∀ col, PyStr.endswith "_restocks" col = true → PyStr.contains "_restocks" col = true) ∧
  (∀ r, r ∈ sales_df to_datetime df ↔
        ∃ col row t, col ∈ sales_cols df ∧ row ∈ data df ∧
          to_datetime (date_column df (sales_cols df) "_sales")
                      (PyStr.replace "_sales" "" col) = Some t ∧
          r = mkMelted (id_tuple df row) (Some t)
                (astype (value_dtype df (sales_cols df)) (at_label (columns df) row col))) ∧
  (∀ r, r ∈ restocks_df to_datetime df ↔
        ∃ col row t, col ∈ restocks_cols df ∧ row ∈ data df ∧
          to_datetime (date_column df (restocks_cols df) "_restocks")
                      (PyStr.replace "_restocks" "" col) = Some t ∧
          r = mkMelted (id_tuple df row) (Some t)
                (astype (value_dtype df (restocks_cols df)) (at_label (columns df) row col))) ∧
  sales_df to_datetime df =
    flat_map (λ col,
      match to_datetime (date_column df (sales_cols df) "_sales")
                        (PyStr.replace "_sales" "" col) with
      | Some t => (λ row, mkMelted (id_tuple df row) (Some t)
                            (astype (value_dtype df (sales_cols df))
                                    (at_label (columns df) row col))) <$> data df
      | None => []
      end) (sales_cols df) ∧
  restocks_df to_datetime df =
    flat_map (λ col,
      match to_datetime (date_column df (restocks_cols df) "_restocks")
                        (PyStr.replace "_restocks" "" col) with
      | Some t => (λ row, mkMelted (id_tuple df row) (Some t)
                            (astype (value_dtype df (restocks_cols df))
                                    (at_label (columns df) row col))) <$> data df
      | None => []
      end) (restocks_cols df) ∧
  (missing_columns (normalize_columns str_strip str_lower raw) = [] →
   sales_cols df ≠ [] → restocks_cols df ≠ [] →
   load_data str_strip str_lower to_datetime (ReadOk raw) =
     ([st_write_raw_columns (columns raw);
       st_write_normalized_columns (columns (normalize_columns str_strip str_lower raw))],
      fill_metrics (merge_outer (sales_df to_datetime df) (restocks_df to_datetime df)))).
Proof.
  intros df. split_and!.
  - intros col. unfold sales_cols. rewrite list_elem_of_filter, Is_true_true. tauto.
  - intros col. unfold restocks_cols. rewrite list_elem_of_filter, Is_true_true. tauto.
  - apply endswith_contains.
  - apply endswith_contains.
  - intros r. apply long_frame_elem.
  - intros r. apply long_frame_elem.
  - apply long_frame_flat.
  - apply long_frame_flat.
  - intros Hm Hs Hr. unfold load_data, load_frame. cbv zeta.
    change (missing_columns (normalize_columns str_strip str_lower (infer_dtypes raw)))
      with (missing_columns (normalize_columns str_strip str_lower raw)).
    rewrite Hm. fold df.
    destruct (sales_cols df); [done|]. destruct (restocks_cols df); [done|]. done.
Qed.

Lemma families_by_marker_witness :
  load_data AsciiStr.strip AsciiStr.lower IsoDate.to_datetime (ReadOk frame_marker_first) =
    ([st_write_raw_columns (columns frame_marker_first);
      st_write_normalized_columns (columns frame_marker_first)],
     [mkRow [Str "A"; Str "v"; Num 1; Str "t"; Str "US"; Str "web"]
            (Some 1704153600000000000) (Num 7) (Num 3)]).
Proof.
  destruct (families_by_marker AsciiStr.strip AsciiStr.lower IsoDate.to_datetime
              frame_marker_first) as (_ & _ & _ & _ & _ & _ & _ & _ & H).
  rewrite H; [vm_compute; reflexivity|vm_compute; reflexivity|..];
    vm_compute; discriminate.
Defined.

(** C3 as stated fails: a column whose name carries [_sales] in front of the
    date does not end in [_sales], yet it is read as a sales column and its
    values reach the returned frame under the date left after removing the
    marker. *)
Lemma sales_family_not_by_suffix :
  let df := dropna required_columns
              (normalize_columns AsciiStr.strip AsciiStr.lower (infer_dtypes frame_marker_first)) in
  "_sales2024-01-02" ∈ sales_cols df ∧
  PyStr.endswith "_sales" "_sales2024-01-02" = false ∧
  (load_data AsciiStr.strip AsciiStr.lower IsoDate.to_datetime (ReadOk frame_marker_first)).2 =
    [mkRow [Str "A"; Str "v"; Num 1; Str "t"; Str "US"; Str "web"]
           (Some 1704153600000000000) (Num 7) (Num 3)].
Proof.
  split; [|split].
  - apply (bool_decide_unpack _). vm_compute. exact I.
  - vm_compute. reflexivity.
  - vm_compute. reflexivity.
Qed.

(** The names of a family are read together: in an export whose sales
    columns are dated 01/02/2024 and 2024-01-03 the format is taken from
    the first, the second is not read as a date and its sales are left
    out, although the same token is read as a date in the restocks
    family. *)
Example families_read_apart :
  (load_data AsciiStr.strip AsciiStr.lower IsoDate.to_datetime (ReadOk frame_two_formats)).2 =
  [mkRow [Str "A"; Str "v"; Num 1; Str "t"; Str "US"; Str "web"]
         (Some (19724 * day_ns)) (Flt (F64.of_Z 10)) (Flt F64.zero);
   mkRow [Str "A"; Str "v"; Num 1; Str "t"; Str "US"; Str "web"]
         (Some (19725 * day_ns)) (Flt F64.zero) (Flt (F64.of_Z 2))].
Proof. vm_compute. reflexivity. Qed.

(** C4.  When an identifier column is absent after the names are trimmed and
    put in lower case, [load_data] reports the absent columns, exactly those
    and each once, in the order of [required_columns], and returns the frame
    without rows. *)
Theorem load_data_missing_columns (str_strip str_lower : string → string)
    (to_datetime : list string → string → option Z) (raw : DataFrame) :
  let df := normalize_columns str_strip str_lower raw in
  missing_columns df ≠ [] →
  load_data str_strip str_lower to_datetime (ReadOk raw) =
    ([st_write_raw_columns (columns raw);
      st_write_normalized_columns (columns df);
      st_error_missing_columns (missing_columns df)], []) ∧
  (∀ col, col ∈ missing_columns df ↔ col ∈ required_columns ∧ col ∉ columns df) ∧
  NoDup (missing_columns df).
Proof.
  intros df Hm. split; [|split].
  - unfold load_data, load_frame. cbv zeta.
    change (missing_columns (normalize_columns str_strip str_lower (infer_dtypes raw)))
      with (missing_columns df).
    destruct (missing_columns df); [done|reflexivity].
  - intros col. unfold missing_columns. rewrite list_elem_of_filter. tauto.
  - apply NoDup_filter. apply (bool_decide_unpack _). vm_compute. exact I.
Qed.

Lemma load_data_missing_columns_witness :
  load_data AsciiStr.strip AsciiStr.lower IsoDate.to_datetime (ReadOk frame_without_country) =
    ([st_write_raw_columns (columns frame_without_country);
      st_write_normalized_columns (columns frame_without_country);
      st_error_missing_columns ["country"]], []).
Proof.
  destruct (load_data_missing_columns AsciiStr.strip AsciiStr.lower IsoDate.to_datetime
              frame_without_country) as [H _].
  - vm_compute. discriminate.
  - exact H.
Defined.

(** ** Filtering *)

Lemma filter_all {A} (P : A → Prop) `{∀ x, Decision (P x)} (l : list A) :
  (∀ x, P x) → filter P l = l.
Proof.
  intros HP. induction l as [|x l IH]; [done|].
  by rewrite filter_cons_True, IH.
Qed.

Lemma filter_fmap {A B} (f : A → B) (P : B → Prop) `{∀ y, Decision (P y)} (l : list A) :
  filter P (f <$> l) = f <$> filter (λ x, P (f x)) l.
Proof.
  induction l as [|x l IH]; [done|].
  rewrite fmap_cons, !filter_cons, IH. by destruct (decide (P (f x))).
Qed.

Lemma apply_selection_filter (fs : gmap string (list cell)) (df : list Row) (field : string) :
  apply_selection fs df field = filter (λ r, passes fs r field) df.
Proof.
  unfold apply_selection, passes, isin_rows.
  destruct (selection fs field) as [|v sel] eqn:E.
  - symmetry. apply filter_all. by left.
  - apply list_filter_iff. intros r. split; [by right|by intros [?|?]].
Qed.

(** A chain of restrictions, one per field that satisfies [Q], keeps the
    rows that pass each of them. *)
Lemma foldl_selections (Q : string → Prop) `{∀ o, Decision (Q o)}
    (fs : gmap string (list cell)) (fields : list string) (df : list Row) :
  foldl (λ df o, if decide (Q o) then apply_selection fs df o else df) df fields =
  filter (λ r, Forall (λ o, Q o → passes fs r o) fields) df.
Proof.
  revert df. induction fields as [|o fields IH]; intros df; simpl.
  - symmetry. apply filter_all. by constructor.
  - rewrite IH. destruct (decide (Q o)) as [HQ|HQ].
    + rewrite apply_selection_filter, list_filter_filter.
      apply list_filter_iff. intros r. rewrite Forall_cons. tauto.
    + apply list_filter_iff. intros r. rewrite Forall_cons. tauto.
Qed.

Lemma get_filtered_df_filter (merged_df : list Row) (fs : gmap string (list cell)) :
  get_filtered_df merged_df fs =
  filter (λ r, Forall (passes fs r) filter_fields) merged_df.
Proof.
  unfold get_filtered_df. generalize filter_fields as fields.
  intros fields. revert merged_df.
  induction fields as [|o fields IH]; intros df; simpl.
  - symmetry. apply filter_all. by constructor.
  - rewrite IH, apply_selection_filter, list_filter_filter.
    apply list_filter_iff. intros r. rewrite Forall_cons. tauto.
Qed.

Lemma temp_df_filter (merged_df : list Row) (fs : gmap string (list cell)) (field : string) :
  temp_df merged_df fs field =
  filter (λ r, Forall (λ o, o ≠ field → passes fs r o) filter_fields) merged_df.
Proof. apply (foldl_selections (λ o, o ≠ field)). Qed.


Lemma offered_elem (merged_df : list Row) (fs : gmap string (list cell)) (field : string)
    (v : cell) :
  v ∈ offered merged_df fs field ↔
  ∃ r, r ∈ merged_df ∧ row_get field r = v ∧
       ∀ o, o ∈ filter_fields → o ≠ field → passes fs r o.
Proof.
  unfold offered, get_filter_options.
  rewrite merge_sort_Permutation, elem_of_unique, list_elem_of_fmap, temp_df_filter.
  setoid_rewrite list_elem_of_filter. setoid_rewrite Forall_forall. naive_solver.
Qed.

Lemma selection_insert (fs : gmap string (list cell)) (g o : string) (sel : list cell) :
  selection (<[g := sel]> fs) o = if decide (g = o) then sel else selection fs o.
Proof. unfold selection. rewrite lookup_insert. by destruct (decide (g = o)). Qed.

Lemma row_get_with_id (v : cell) (r : Row) (field : string) :
  field ∈ filter_fields → row_get field (with_id v r) = row_get field r.
Proof.
  unfold filter_fields. rewrite !elem_of_cons, elem_of_nil.
  intros [->|[->|[->|[->|[->|[]]]]]]; unfold row_get, with_id, at_label; simpl;
    by destruct (ids r) as [|a [|b [|c l]]].
Qed.

(** C5.  Restricting a frame by a selection map a second time changes
    nothing. *)
Theorem get_filtered_df_idempotent (merged_df : list Row) (fs : gmap string (list cell)) :
  get_filtered_df (get_filtered_df merged_df fs) fs = get_filtered_df merged_df fs.
Proof.
  rewrite !get_filtered_df_filter. by apply list_filter_filter_l.
Qed.

(** C6.  The options offered for a field are the distinct values the field
    takes on the rows that pass the non-empty selections of the other
    filterable fields; and restricting a field [g] to any selection offers,
    for a field [f], a part of what is offered with nothing selected
    for [g]. *)
Theorem offered_narrows (merged_df : list Row) (fs : gmap string (list cell))
    (f g : string) (sel : list cell) :
  (∀ v, v ∈ offered merged_df fs f ↔
        ∃ r, r ∈ merged_df ∧ row_get f r = v ∧
             ∀ o, o ∈ filter_fields → o ≠ f → selection fs o ≠ [] →
                  row_get o r ∈ selection fs o) ∧
  NoDup (offered merged_df fs f) ∧
  offered merged_df (<[g := sel]> fs) f ⊆ offered merged_df (<[g := []]> fs) f.
Proof.
  split_and!.
  - intros v. rewrite offered_elem. unfold passes.
    split; intros (r & Hr & Hv & Ho); exists r; (split; [done|]; split; [done|]).
    + intros o H1 H2 H3. by destruct (Ho o H1 H2).
    + intros o H1 H2. destruct (decide (selection fs o = [])); [by left|right; auto].
  - unfold offered, get_filter_options.
    rewrite merge_sort_Permutation. apply NoDup_unique.
  - intros v (r & Hr & Hv & Ho)%offered_elem. apply offered_elem.
    exists r; split; [done|]; split; [done|].
    intros o H1 H2. specialize (Ho o H1 H2). unfold passes in *.
    rewrite selection_insert in *. destruct (decide (g = o)); [by left|done].
Qed.

Lemma offered_narrows_witness :
  let merged_df := (load_data AsciiStr.strip AsciiStr.lower IsoDate.to_datetime (ReadOk sample_frame)).2 in
  offered merged_df (<["title" := [Str "A"]]> init_filters) "variation" = [Str "v"; Str "w"] ∧
  offered merged_df (<["variation" := [Str "w"]]> init_filters) "title"
    ⊆ offered merged_df (<["variation" := []]> init_filters) "title".
Proof.
  intros merged_df. split; [vm_compute; reflexivity|].
  apply (offered_narrows merged_df init_filters "title" "variation" [Str "w"]).
Defined.

(** ** Aggregation *)

Section AggregationFacts.
Variable float_sum : list spec_float → spec_float.

#[local] Arguments day_ns : simpl never.
#[local] Arguments Z.mul : simpl never.
#[local] Arguments Z.add : simpl never.

Lemma day_ns_pos : 0 < day_ns.
Proof. reflexivity. Qed.

Lemma normalize_bounds (t : Z) :
  normalize t ≤ t < normalize t + day_ns ∧ normalize t mod day_ns = 0.
Proof.
  unfold normalize. pose proof day_ns_pos as Hd.
  pose proof (Z.mod_pos_bound t day_ns Hd) as Hm. split; [lia|].
  rewrite Zminus_mod_idemp_r, Z.sub_diag. by apply Z.mod_0_l, Z.neq_sym, Z.lt_neq.
Qed.

Lemma normalize_midnight (t : Z) : t mod day_ns = 0 → normalize t = t.
Proof. unfold normalize. lia. Qed.

(** The bin of a timestamp: the only interval of the grid that holds it. *)
Lemma bin_edge_spec (first freq t : Z) :
  0 < freq →
  ∃ k, bin_edge first freq t = first + k * freq ∧
       first + k * freq ≤ t < first + (k + 1) * freq ∧
       (first ≤ t → 0 ≤ k) ∧
       ∀ k', first + k' * freq ≤ t < first + (k' + 1) * freq → k' = k.
Proof.
  intros Hf. exists ((t - first) / freq). unfold bin_edge.
  pose proof (Z.mul_div_le (t - first) freq Hf) as H1.
  pose proof (Z.mul_succ_div_gt (t - first) freq Hf) as H2.
  split_and!; [done|lia|lia| |].
  - intros Hle. apply Z.div_pos; lia.
  - intros k' Hk'. apply (Z.div_unique_pos _ _ _ (t - first - k' * freq)); lia.
Qed.

Lemma bin_edge_interval (first freq q t : Z) :
  0 < freq →
  bin_edge first freq t = first + q * freq ↔
  first + q * freq ≤ t < first + q * freq + freq.
Proof.
  intros Hf. destruct (bin_edge_spec first freq t Hf) as (k & Hk & Hin & _ & Huniq).
  rewrite Hk. split.
  - intros Heq. assert (k = q) as -> by nia. lia.
  - intros Hq. rewrite (Huniq q) by lia. done.
Qed.

Lemma min_date_spec (df : list Row) (d : Z) :
  d ∈ dates df →
  ∃ t0, min_date df = Some t0 ∧ t0 ∈ dates df ∧ ∀ d', d' ∈ dates df → t0 ≤ d'.
Proof.
  unfold min_date. destruct (dates df) as [|t ts]; [by intros ?%elem_of_nil|].
  intros _. eexists; split; [done|]. clear.
  induction ts as [|u ts [IH1 IH2]]; simpl.
  - split; [by left|]. by intros d' ->%list_elem_of_singleton.
  - split.
    + destruct (Z.min_spec u (foldr Z.min t ts)) as [[_ ->]|[_ ->]].
      * right; by left.
      * apply elem_of_cons in IH1 as [->|?]; [by left|by right; right].
    + intros d' Hd'. apply elem_of_cons in Hd' as [Hd'|Hd'].
      * pose proof (IH2 d' ltac:(subst; by left)). lia.
      * apply elem_of_cons in Hd' as [Hd'|Hd']; [lia|].
        pose proof (IH2 d' ltac:(by right)). lia.
Qed.

Lemma sum_Z_cons (x : Z) (l : list Z) : sum_Z (x :: l) = x + sum_Z l.
Proof. reflexivity. Qed.

Lemma sum_Z_Permutation (l k : list Z) : l ≡ₚ k → sum_Z l = sum_Z k.
Proof. induction 1; rewrite ?sum_Z_cons; lia. Qed.

Lemma sum_Z_zero {A} (l : list A) : sum_Z ((λ _, 0) <$> l) = 0.
Proof. induction l as [|x l IH]; [done|]. rewrite fmap_cons, sum_Z_cons. lia. Qed.

Lemma sum_Z_fmap_add {A} (g h : A → Z) (l : list A) :
  sum_Z ((λ x, g x + h x) <$> l) = sum_Z (g <$> l) + sum_Z (h <$> l).
Proof. induction l as [|x l IH]; [done|]. rewrite !fmap_cons, !sum_Z_cons. lia. Qed.

Lemma sum_Z_indicator {K} `{EqDecision K} (k0 : K) (c : Z) (ks : list K) :
  NoDup ks → k0 ∈ ks →
  sum_Z ((λ k, if decide (k0 = k) then c else 0) <$> ks) = c.
Proof.
  induction 1 as [|k ks Hk Hks IH]; [by intros ?%elem_of_nil|].
  intros Hin. rewrite fmap_cons, sum_Z_cons. destruct (decide (k0 = k)) as [->|Hne].
  - assert (sum_Z ((λ k', if decide (k = k') then c else 0) <$> ks) = 0) as ->; [|lia].
    clear IH Hin Hks. induction ks as [|k' ks IH]; [done|].
    apply not_elem_of_cons in Hk as [Hne Hk].
    rewrite fmap_cons, sum_Z_cons, decide_False by done. rewrite IH by done. lia.
  - apply elem_of_cons in Hin as [?|Hin]; [done|]. rewrite IH by done. lia.
Qed.

(** Summing group by group gives the sum over all rows, when every row
    has a key and every key is listed once. *)
Lemma sum_by_groups {A K} `{EqDecision K} (key : A → option K) (f : A → Z)
    (ks : list K) (l : list A) :
  NoDup ks →
  (∀ r, r ∈ l → ∃ k, key r = Some k ∧ k ∈ ks) →
  sum_Z ((λ k, sum_Z (f <$> filter (λ r, key r = Some k) l)) <$> ks) = sum_Z (f <$> l).
Proof.
  intros Hks. induction l as [|r l IH]; intros Hl.
  - apply sum_Z_zero.
  - destruct (Hl r ltac:(by left)) as (k0 & Hk0 & Hin).
    rewrite fmap_cons. change (sum_Z (f r :: (f <$> l))) with (f r + sum_Z (f <$> l)).
    rewrite <- IH by (intros r' Hr'; apply Hl; by right).
    rewrite <- (sum_Z_indicator k0 (f r) ks Hks Hin) at 1.
    rewrite <- sum_Z_fmap_add. f_equal. apply list_fmap_ext. intros _ k _.
    rewrite filter_cons, Hk0.
    destruct (decide (k0 = k)) as [->|Hne].
    + by rewrite decide_True.
    + rewrite decide_False by congruence. lia.
Qed.

(** *** int64 sums *)

Lemma wrap_range (z : Z) : - 2 ^ 63 ≤ I64.wrap z < 2 ^ 63.
Proof.
  unfold I64.wrap.
  pose proof (Z.mod_pos_bound (z + 2 ^ 63) (2 ^ 64) ltac:(lia)). lia.
Qed.

Lemma wrap_small (z : Z) : - 2 ^ 63 ≤ z < 2 ^ 63 → I64.wrap z = z.
Proof. intros Hz. unfold I64.wrap. rewrite Z.mod_small; lia. Qed.

Lemma wrap_add_l (x y : Z) : I64.wrap (I64.wrap x + y) = I64.wrap (x + y).
Proof.
  unfold I64.wrap. f_equal.
  replace ((x + 2 ^ 63) mod 2 ^ 64 - 2 ^ 63 + y + 2 ^ 63)
    with ((x + 2 ^ 63) mod 2 ^ 64 + y) by lia.
  rewrite Zplus_mod_idemp_l. f_equal. lia.
Qed.

Lemma wrap_add_r (x y : Z) : I64.wrap (x + I64.wrap y) = I64.wrap (x + y).
Proof. rewrite (Z.add_comm x), wrap_add_l. f_equal. lia. Qed.

Lemma wrap_idemp (z : Z) : I64.wrap (I64.wrap z) = I64.wrap z.
Proof. apply wrap_small, wrap_range. Qed.

(** Adding one value after the other in 64 bits gives the exact sum,
    wrapped once. *)
Lemma I64_sum_wrap (l : list Z) : I64.sum l = I64.wrap (sum_Z l).
Proof.
  unfold I64.sum. change 0 with (I64.wrap 0) at 1.
  change (sum_Z l) with (0 + sum_Z l). generalize 0 as acc.
  induction l as [|x l IH]; intros acc.
  - simpl. f_equal. unfold sum_Z. simpl. lia.
  - cbn [foldl]. unfold I64.add at 2. rewrite wrap_add_l, IH, sum_Z_cons.
    f_equal. lia.
Qed.

Lemma wrap_sum_wrap {A} (f : A → Z) (l : list A) :
  I64.wrap (sum_Z ((λ x, I64.wrap (f x)) <$> l)) = I64.wrap (sum_Z (f <$> l)).
Proof.
  induction l as [|x l IH]; [done|].
  rewrite !fmap_cons, !sum_Z_cons, wrap_add_l.
  rewrite <- wrap_add_r, IH, wrap_add_r. done.
Qed.

(** A column is int64 when each of its cells is an integer. *)
Lemma dtype_of_int64 (col : list cell) :
  dtype_of col = int64 ↔ ∀ c, c ∈ col → ∃ z, c = Num z.
Proof.
  unfold dtype_of.
  destruct (existsb is_text col) eqn:Et.
  { split; [done|]. intros H. apply existsb_exists in Et as (c & Hc & Ht).
    apply list_elem_of_In in Hc. destruct (H c Hc) as [z ->]. done. }
  destruct (existsb is_float col) eqn:Ef.
  { split; [done|]. intros H. apply existsb_exists in Ef as (c & Hc & Ht).
    apply list_elem_of_In in Hc. destruct (H c Hc) as [z ->]. done. }
  split; [|done]. intros _ c Hc. apply list_elem_of_In in Hc.
  destruct c as [|z|x|s]; [| by exists z | |].
  - assert (existsb is_float col = true) as E; [|by rewrite E in Ef].
    apply existsb_exists. by exists NaN.
  - assert (existsb is_float col = true) as E; [|by rewrite E in Ef].
    apply existsb_exists. by exists (Flt x).
  - assert (existsb is_text col = true) as E; [|by rewrite E in Et].
    apply existsb_exists. by exists (Str s).
Qed.

Lemma group_key_Some (first freq : Z) (r : Row) (k : cell * Z) :
  group_key first freq r = Some k ↔
  row_get "title" r = k.1 ∧ k.1 ≠ NaN ∧ ∃ d, date r = Some d ∧ bin_edge first freq d = k.2.
Proof.
  unfold group_key. destruct k as [t b]; simpl.
  destruct (row_get "title" r) as [|z|x|s], (date r) as [d|]; split;
    try (intros [=]; subst; eauto; done);
    try (intros (<- & ? & d' & [=] & <-); subst; done);
    try (intros (<- & ? & d' & ? & <-); done).
Qed.

(** The rows of a group are the rows of the series that fall into the
    interval of the group's bin. *)
Lemma group_rows_bucket (first freq : Z) (k : cell * Z) (df : list Row) (r0 : Row) :
  0 < freq → group_key first freq r0 = Some k →
  group_rows first freq k df = filter (in_bucket k.1 k.2 freq) df.
Proof.
  intros Hf (Ht & Hna & d0 & Hd0 & Hb)%group_key_Some.
  destruct (bin_edge_spec first freq d0 Hf) as (q & Hq & _).
  unfold group_rows. apply list_filter_iff. intros r.
  rewrite group_key_Some. unfold in_bucket. rewrite <- Hb, Hq.
  destruct (date r) as [d|].
  - rewrite <- (bin_edge_interval first freq q d Hf). naive_solver.
  - naive_solver.
Qed.

Lemma groupby_sum_elem (value : Row → cell) (days : Z) (df : list Row) (a : AggRow) :
  a ∈ groupby_sum float_sum value days df ↔
  ∃ t0 k r, min_date df = Some t0 ∧ r ∈ df ∧
    group_key (normalize t0) (days * day_ns) r = Some k ∧
    a = mkAgg k.1 k.2
          (series_sum float_sum (dtype_of (value <$> df))
             (value <$> group_rows (normalize t0) (days * day_ns) k df)).
Proof.
  unfold groupby_sum. destruct (min_date df) as [t0|].
  - rewrite list_elem_of_fmap.
    setoid_rewrite merge_sort_Permutation. setoid_rewrite elem_of_unique.
    setoid_rewrite list_elem_of_omap. naive_solver.
  - split; [by intros ?%elem_of_nil|]. by intros (? & ? & ? & [=] & _).
Qed.

(** No two rows of an aggregate describe the same series and bin. *)
Lemma groupby_sum_keys (value : Row → cell) (days : Z) (df : list Row) :
  NoDup ((λ a, (a_title a, a_date a)) <$> groupby_sum float_sum value days df).
Proof.
  unfold groupby_sum. destruct (min_date df) as [t0|]; [|constructor].
  rewrite <- list_fmap_compose.
  rewrite (list_fmap_ext _ id) by (by intros ? [??] ?).
  rewrite list_fmap_id, merge_sort_Permutation. apply NoDup_unique.
Qed.




End AggregationFacts.

(** ** Aggregation and page: the claims *)

Lemma day_freq_pos (days : Z) : 0 < days → 0 < days * day_ns.
Proof. pose proof day_ns_pos. nia. Qed.

Section AggregateFacts.
Variable float_sum : list spec_float → spec_float.

Lemma sales_agg_elem (days : Z) (T : list Row) (a : AggRow) :
  a ∈ sales_agg float_sum days T ↔ a ∈ groupby_sum float_sum sales days T.
Proof. unfold sales_agg, sort_values_date. by rewrite merge_sort_Permutation. Qed.

Lemma restocks_agg_elem (days : Z) (T : list Row) (a : AggRow) :
  a ∈ restocks_agg float_sum days T ↔
  ∃ a', a = abs_value a' ∧ a' ∈ groupby_sum float_sum restocks days T.
Proof.
  unfold restocks_agg, sort_values_date.
  by rewrite merge_sort_Permutation, list_elem_of_fmap.
Qed.



(** Every series with a row in a bin has its row in the aggregate. *)
Lemma groupby_sum_covers (value : Row → cell) (days : Z) (T : list Row) (r : Row) (d : Z) :
  0 < days → r ∈ T → row_get "title" r ≠ NaN → date r = Some d →
  ∃ t0, min_date T = Some t0 ∧
    let lo := bin_edge (normalize t0) (days * day_ns) d in
    lo ≤ d < lo + days * day_ns ∧
    mkAgg (row_get "title" r) lo
      (series_sum float_sum (dtype_of (value <$> T))
         (value <$> filter (in_bucket (row_get "title" r) lo (days * day_ns)) T))
    ∈ groupby_sum float_sum value days T.
Proof.
  intros Hd Hr Ht Hdate.
  assert (d ∈ dates T) as Hin by (apply list_elem_of_omap; eauto).
  destruct (min_date_spec T d Hin) as (t0 & Hmin & _). exists t0; split; [done|].
  intros lo. pose proof (day_freq_pos days Hd) as Hf.
  destruct (bin_edge_spec (normalize t0) (days * day_ns) d Hf) as (k & Hk & Hint & _).
  split; [unfold lo; rewrite Hk; lia|].
  assert (group_key (normalize t0) (days * day_ns) r = Some (row_get "title" r, lo)) as Hkey.
  { unfold group_key. rewrite Hdate. by destruct (row_get "title" r). }
  apply groupby_sum_elem. exists t0, (row_get "title" r, lo), r.
  split_and!; [done..|]. cbn [fst snd].
  by rewrite (group_rows_bucket _ _ _ _ r Hf Hkey).
Qed.


End AggregateFacts.







Lemma load_data_log (str_strip str_lower : string → string)
    (to_datetime : list string → string → option Z) (read : read_csv_result) (c : st_call) :
  c ∈ (load_data str_strip str_lower to_datetime read).1 →
  (∀ fig, c ≠ st_plotly_chart fig) ∧ (∀ df, c ≠ st_dataframe df) ∧ c ≠ st_warning_no_match.
Proof.
  destruct read as [e|raw]; simpl.
  - intros ->%list_elem_of_singleton. done.
  - unfold load_frame.
    destruct (missing_columns _); [|];
      [destruct (sales_cols _); [|destruct (restocks_cols _)]|];
      cbn [fst app]; rewrite ?elem_of_cons, elem_of_nil; intros H;
      repeat (destruct H as [->|H]; [done|]); done.
Qed.

(** C9.  Once the loader has returned rows: when the selections and the date
    range leave no row, the run adds to the loader's log the warning and
    nothing else, so no chart and no table; charts and the table are shown
    only for a filtered frame that has rows, and the aggregates they show are
    those of that frame. *)
Theorem empty_filtered_df_warns (str_strip str_lower : string → string)
    (to_datetime : list string → string → option Z)
    (float_sum : list spec_float → spec_float) (read : read_csv_result)
    (fs : gmap string (list cell))
    (multiselect : string → list cell → list cell → list cell)
    (start_date end_date : Z) (i : interval) :
  let merged_df := (load_data str_strip str_lower to_datetime read).2 in
  let filtered :=
    filtered_df merged_df (sidebar merged_df multiselect fs) start_date end_date in
  let page := script str_strip str_lower to_datetime float_sum read fs multiselect start_date end_date i in
  merged_df ≠ [] →
  (filtered = [] →
     page = (load_data str_strip str_lower to_datetime read).1 ++ [st_warning_no_match] ∧
     ∀ c, c ∈ page → (∀ fig, c ≠ st_plotly_chart fig) ∧ (∀ df, c ≠ st_dataframe df)) ∧
  (filtered ≠ [] →
     page = (load_data str_strip str_lower to_datetime read).1 ++
       [ st_subheader "销售趋势";
         st_plotly_chart (sales_agg float_sum (interval_days i) filtered);
         st_subheader "补货趋势";
         st_plotly_chart (restocks_agg float_sum (interval_days i) filtered);
         st_subheader "过滤后的数据";
         st_dataframe filtered ] ∧
     (st_warning_no_match ∉ page)) ∧
  (∀ rows days, render float_sum rows days = [st_warning_no_match] ↔ rows = []) ∧
  (∀ rows days fig, st_plotly_chart fig ∈ render float_sum rows days → rows ≠ []).
Proof.
  intros merged_df filtered page Hm.
  assert (page = (load_data str_strip str_lower to_datetime read).1 ++
            render float_sum filtered (interval_days i)) as Hpage.
  { unfold page, script, filtered, merged_df in *.
    destruct (load_data str_strip str_lower to_datetime read) as [log rows]; simpl in *.
    by destruct rows. }
  split_and!.
  - intros Hf. rewrite Hpage, Hf. split; [done|].
    intros c [Hc|Hc%list_elem_of_singleton]%elem_of_app.
    + apply load_data_log in Hc. tauto.
    + by subst c.
  - intros Hf. rewrite Hpage. destruct filtered as [|r rows] eqn:E; [done|].
    split; [done|]. intros [Hc|Hc]%elem_of_app.
    + by apply load_data_log in Hc as (_ & _ & ?).
    + cbn [render] in Hc. rewrite !elem_of_cons, elem_of_nil in Hc.
      repeat (destruct Hc as [Hc|Hc]; [done|]). done.
  - intros rows days. by destruct rows.
  - intros rows days fig H ->. by apply list_elem_of_singleton in H.
Qed.

Lemma empty_filtered_df_warns_witness :
  script AsciiStr.strip AsciiStr.lower IsoDate.to_datetime F64.sum (ReadOk sample_frame) init_filters (λ _ _ default, default)
         19725 19726 Days7 =
  (load_data AsciiStr.strip AsciiStr.lower IsoDate.to_datetime (ReadOk sample_frame)).1 ++ [st_warning_no_match].
Proof.
  destruct (empty_filtered_df_warns AsciiStr.strip AsciiStr.lower IsoDate.to_datetime
              F64.sum (ReadOk sample_frame)
              init_filters (λ _ _ default, default) 19725 19726 Days7) as [H _].
  - vm_compute. discriminate.
  - destruct H as [H _]; [vm_compute; reflexivity|exact H].
Defined.

(** C10.  The group key of a row is its title and the bin of its date, so
    rows of one title in one bin are summed into one row of the sales
    aggregate and one row of the restocks aggregate whatever their other
    identifiers; each series and bin occurs once in an aggregate.  The [id]
    column is not a filterable field: filtering commutes with any change of
    the [id] entries. *)
Theorem grouped_by_title_only (float_sum : list spec_float → spec_float)
    (days : Z) (T : list Row) :
  "id" ∉ filter_fields ∧
  (∀ fs (g : Row → cell),
     get_filtered_df ((λ r, with_id (g r) r) <$> T) fs =
     (λ r, with_id (g r) r) <$> get_filtered_df T fs) ∧
  (∀ first freq r1 r2,
     row_get "title" r1 = row_get "title" r2 → date r1 = date r2 →
     group_key first freq r1 = group_key first freq r2) ∧
  NoDup ((λ a, (a_title a, a_date a)) <$> sales_agg float_sum days T) ∧
  NoDup ((λ a, (a_title a, a_date a)) <$> restocks_agg float_sum days T) ∧
  (0 < days →
   ∀ r d, r ∈ T → row_get "title" r ≠ NaN → date r = Some d →
     ∃ t0, min_date T = Some t0 ∧
       let lo := bin_edge (normalize t0) (days * day_ns) d in
       let series := filter (in_bucket (row_get "title" r) lo (days * day_ns)) T in
       lo ≤ d < lo + days * day_ns ∧ r ∈ series ∧
       mkAgg (row_get "title" r) lo
         (series_sum float_sum (dtype_of (sales <$> T)) (sales <$> series))
         ∈ sales_agg float_sum days T ∧
       mkAgg (row_get "title" r) lo
         (cell_abs (series_sum float_sum (dtype_of (restocks <$> T)) (restocks <$> series)))
         ∈ restocks_agg float_sum days T).
Proof.
  split_and!.
  - apply (bool_decide_unpack _). vm_compute. exact I.
  - intros fs g. rewrite !get_filtered_df_filter, filter_fmap.
    f_equal. apply list_filter_iff. intros r. rewrite !Forall_forall.
    unfold passes. split; intros H o Ho; specialize (H o Ho);
      by rewrite ?row_get_with_id in * by done.
  - intros first freq r1 r2 Ht Hd. unfold group_key. by rewrite Ht, Hd.
  - unfold sales_agg, sort_values_date. rewrite merge_sort_Permutation.
    apply groupby_sum_keys.
  - unfold restocks_agg, sort_values_date.
    rewrite merge_sort_Permutation, <- list_fmap_compose.
    apply (groupby_sum_keys float_sum restocks days T).
  - intros Hd r d Hr Ht Hdate.
    destruct (groupby_sum_covers float_sum sales days T r d Hd Hr Ht Hdate)
      as (t0 & Hmin & Hlo & Hs).
    destruct (groupby_sum_covers float_sum restocks days T r d Hd Hr Ht Hdate)
      as (t0' & Hmin' & _ & Hre).
    rewrite Hmin in Hmin'. injection Hmin' as <-.
    exists t0. split; [done|]. intros lo series. split; [exact Hlo|]. split_and!.
    + apply list_elem_of_filter. split; [|done]. unfold in_bucket. by rewrite Hdate.
    + by apply sales_agg_elem.
    + apply restocks_agg_elem. eexists; split; [|exact Hre]. done.
Qed.

Lemma grouped_by_title_only_witness :
  mkAgg (Str "A") 1704067200000000000 (Num 10) ∈ sales_agg F64.sum 7 restock_pair ∧
  mkAgg (Str "A") 1704067200000000000 (Num 3) ∈ restocks_agg F64.sum 7 restock_pair.
Proof.
  destruct (grouped_by_title_only F64.sum 7 restock_pair) as (_ & _ & _ & _ & _ & H).
  destruct (H ltac:(lia)
              (mkRow [Str "A"; Str "v"; Num 1; Str "t"; Str "US"; Str "web"]
                     (Some 1704067200000000000) (Num 4) (Num (-5)))
              1704067200000000000
              ltac:(by left) ltac:(vm_compute; discriminate) eq_refl)
    as (t0 & Hmin & _ & _ & Hs & Hr).
  vm_compute in Hmin. injection Hmin as <-.
  split; [exact Hs|exact Hr].
Defined.

(** * Further properties of the script *)

(** ** Selections and the date range (lines 94-111 and 165-170) *)

Lemma filter_iff_in {A} (P Q : A → Prop) `{∀ x, Decision (P x)} `{∀ x, Decision (Q x)}
    (l : list A) :
  (∀ x, x ∈ l → P x ↔ Q x) → filter P l = filter Q l.
Proof.
  induction l as [|x l IH]; intros HPQ; [done|].
  rewrite !filter_cons, IH by (intros y Hy; apply HPQ; by right).
  destruct (decide (P x)) as [HP|HP], (decide (Q x)) as [HQ|HQ]; try done;
    exfalso; pose proof (HPQ x ltac:(by left)); tauto.
Qed.

Lemma passes_iff (fs : gmap string (list cell)) (r : Row) (field : string) :
  passes fs r field ↔ (selection fs field ≠ [] → row_get field r ∈ selection fs field).
Proof.
  unfold passes. destruct (decide (selection fs field = [])); naive_solver.
Qed.

Lemma passes_all (fs : gmap string (list cell)) (r : Row) :
  Forall (passes fs r) filter_fields ↔
  ∀ field, field ∈ filter_fields → selection fs field ≠ [] →
           row_get field r ∈ selection fs field.
Proof. rewrite Forall_forall. setoid_rewrite passes_iff. done. Qed.

(** X1.  [get_filtered_df] is the merged frame with the rows removed that
    fail a selection: every row whose value is among the selected ones for
    every filterable field that has a selection is kept, as often as it
    occurs and in its place; no other row is. *)
Theorem get_filtered_df_rows (merged_df : list Row) (fs : gmap string (list cell)) :
  get_filtered_df merged_df fs =
    filter (λ r, Forall (passes fs r) filter_fields) merged_df ∧
  (∀ r, Forall (passes fs r) filter_fields ↔
        ∀ field, field ∈ filter_fields → selection fs field ≠ [] →
                 row_get field r ∈ selection fs field) ∧
  get_filtered_df merged_df fs `sublist_of` merged_df ∧
  ∀ r, r ∈ get_filtered_df merged_df fs ↔
       r ∈ merged_df ∧
       ∀ field, field ∈ filter_fields → selection fs field ≠ [] →
                row_get field r ∈ selection fs field.
Proof.
  rewrite get_filtered_df_filter. split_and!; [done|apply passes_all|apply sublist_filter|].
  intros r. rewrite list_elem_of_filter, passes_all. tauto.
Qed.

(** X2.  The two buttons of a field lead to the same filtered frame:
    selecting every option offered for the field restricts as little as
    selecting nothing for it. *)
Theorem select_all_as_deselect_all (merged_df : list Row) (fs : gmap string (list cell))
    (field : string) :
  get_filtered_df merged_df (select_all fs field (offered merged_df fs field)) =
  get_filtered_df merged_df (deselect_all fs field).
Proof.
  rewrite !get_filtered_df_filter. apply filter_iff_in. intros r Hr.
  rewrite !Forall_forall. unfold select_all, deselect_all.
  assert (∀ sel o, field ≠ o → passes (<[field := sel]> fs) r o ↔ passes fs r o) as Hother.
  { intros sel o Hne. unfold passes. by rewrite selection_insert, decide_False. }
  split; intros H o Ho; destruct (decide (field = o)) as [<-|Hne].
  - left. by rewrite selection_insert, decide_True.
  - apply Hother; [done|]. by apply (Hother (offered merged_df fs field)), H.
  - right. rewrite selection_insert, decide_True by done.
    apply offered_elem. exists r. split; [done|]. split; [done|].
    intros o' Ho' Hne'. apply (Hother [] o'); [congruence|]. by apply H.
  - apply Hother; [done|]. by apply (Hother []), H.
Qed.

(** X3.  With nothing selected for any filterable field, as in a fresh
    session, every row passes and each field is offered all the values it
    takes in the merged frame. *)
Theorem no_selection_no_restriction (merged_df : list Row) (fs : gmap string (list cell)) :
  (∀ field, field ∈ filter_fields → selection fs field = []) →
  get_filtered_df merged_df fs = merged_df ∧
  ∀ field v, v ∈ offered merged_df fs field ↔ ∃ r, r ∈ merged_df ∧ row_get field r = v.
Proof.
  intros Hfs. split.
  - rewrite get_filtered_df_filter. apply filter_all. intros r.
    apply Forall_forall. intros o Ho. left. by apply Hfs.
  - intros field v. rewrite offered_elem. split.
    + intros (r & Hr & Hv & _). by exists r.
    + intros (r & Hr & Hv). exists r. split; [done|]. split; [done|].
      intros o Ho _. left. by apply Hfs.
Qed.

Lemma no_selection_no_restriction_witness :
  let merged_df := (load_data AsciiStr.strip AsciiStr.lower IsoDate.to_datetime (ReadOk sample_frame)).2 in
  get_filtered_df merged_df init_filters = merged_df.
Proof.
  intros merged_df.
  destruct (no_selection_no_restriction merged_df init_filters) as [H _]; [|exact H].
  intros field Hf. unfold filter_fields in Hf.
  rewrite !elem_of_cons, elem_of_nil in Hf.
  destruct Hf as [->|[->|[->|[->|[->|[]]]]]]; reflexivity.
Defined.

Lemma in_range_spec (lo hi : Z) (d : option Z) :
  in_range lo hi d ↔ ∃ t, d = Some t ∧ lo ≤ t ≤ hi.
Proof.
  unfold in_range. destruct d as [t|]; simpl.
  - rewrite andb_True, !Is_true_true, !Z.leb_le. naive_solver.
  - naive_solver.
Qed.

(** X4.  The frame that is aggregated and shown is the merged frame with
    the rows removed that fail a selection or lie outside the date range:
    a row that passes the selections and whose date lies between midnight
    of the start day and midnight of the end day, both included, is kept,
    as often as it occurs and in its place; no other row is, and a row
    without date is never shown. *)
Theorem filtered_df_rows (merged_df : list Row) (fs : gmap string (list cell))
    (start_date end_date : Z) :
  filtered_df merged_df fs start_date end_date =
    filter (λ r, Forall (passes fs r) filter_fields ∧
                 in_range (start_date * day_ns) (end_date * day_ns) (date r)) merged_df ∧
  (∀ r, Forall (passes fs r) filter_fields ∧
        in_range (start_date * day_ns) (end_date * day_ns) (date r) ↔
        (∀ field, field ∈ filter_fields → selection fs field ≠ [] →
                  row_get field r ∈ selection fs field) ∧
        ∃ t, date r = Some t ∧ start_date * day_ns ≤ t ≤ end_date * day_ns) ∧
  filtered_df merged_df fs start_date end_date `sublist_of` merged_df ∧
  ∀ r, r ∈ filtered_df merged_df fs start_date end_date ↔
       r ∈ merged_df ∧
       (∀ field, field ∈ filter_fields → selection fs field ≠ [] →
                 row_get field r ∈ selection fs field) ∧
       ∃ t, date r = Some t ∧ start_date * day_ns ≤ t ≤ end_date * day_ns.
Proof.
  assert (filtered_df merged_df fs start_date end_date =
          filter (λ r, Forall (passes fs r) filter_fields ∧
                       in_range (start_date * day_ns) (end_date * day_ns) (date r))
                 merged_df) as Heq.
  { unfold filtered_df, clamp, timestamp_of_day.
    rewrite get_filtered_df_filter, list_filter_filter.
    apply list_filter_iff. intros r. tauto. }
  rewrite Heq. split_and!; [done| |apply sublist_filter|].
  - intros r. by rewrite passes_all, in_range_spec.
  - intros r. rewrite list_elem_of_filter, passes_all, in_range_spec. tauto.
Qed.

Lemma clamp_get_filtered_df (df : list Row) (fs : gmap string (list cell)) (a b : Z) :
  clamp (get_filtered_df df fs) a b = get_filtered_df (clamp df a b) fs.
Proof.
  unfold clamp. rewrite !get_filtered_df_filter, !list_filter_filter.
  apply list_filter_iff. intros r. tauto.
Qed.

(** X5.  Clamping composes by intersecting the ranges, a range that ends
    before it starts keeps nothing, and clamping commutes with the
    selections: it does not matter which of the two is applied first. *)
Theorem clamp_composes (df : list Row) (fs : gmap string (list cell)) (a b c d : Z) :
  clamp (clamp df a b) c d = clamp df (Z.max a c) (Z.min b d) ∧
  (b < a → clamp df a b = []) ∧
  clamp (get_filtered_df df fs) a b = get_filtered_df (clamp df a b) fs.
Proof.
  pose proof day_ns_pos as Hday. split_and!; [| |apply clamp_get_filtered_df]; unfold clamp.
  - rewrite list_filter_filter. apply list_filter_iff. intros r.
    rewrite !in_range_spec. unfold timestamp_of_day. split.
    + intros [(t & Ht & H1) (t' & Ht' & H2)]. exists t. split; [done|].
      assert (t' = t) as -> by congruence. nia.
    + intros (t & Ht & H). split; exists t; (split; [done|nia]).
  - intros Hba. induction df as [|r df IH]; [done|].
    rewrite filter_cons_False; [done|].
    rewrite in_range_spec. unfold timestamp_of_day. intros (t & _ & H). nia.
Qed.

Lemma clamp_composes_witness :
  clamp (load_data AsciiStr.strip AsciiStr.lower IsoDate.to_datetime (ReadOk sample_frame)).2 19730 19723 = [].
Proof.
  destruct (clamp_composes (load_data AsciiStr.strip AsciiStr.lower IsoDate.to_datetime (ReadOk sample_frame)).2
              init_filters 19730 19723 0 0) as (_ & H & _).
  apply H. lia.
Defined.

(** ** Options (lines 113-115) *)

#[global] Instance cell_le_total : Total cell_le.
Proof.
  intros [|x|x|s] [|y|y|t]; simpl; try tauto; try lia.
  destruct (String.leb_total s t) as [H|H]; rewrite H; simpl; tauto.
Qed.

Lemma string_leb_trans (s t u : string) :
  String.leb s t = true → String.leb t u = true → String.leb s u = true.
Proof.
  unfold String.leb. intros Hst Htu.
  destruct (String.compare s t) eqn:E1; [|clear Hst|done].
  - apply String.compare_eq_iff in E1. by subst.
  - destruct (String.compare t u) eqn:E2; [|clear Htu|done].
    + apply String.compare_eq_iff in E2. subst. by rewrite E1.
    + apply OrderedTypeEx.String_as_OT.cmp_lt in E1, E2.
      pose proof (OrderedTypeEx.String_as_OT.lt_trans _ _ _ E1 E2) as H.
      apply OrderedTypeEx.String_as_OT.cmp_lt in H.
      unfold OrderedTypeEx.String_as_OT.cmp in H. by rewrite H.
Qed.

#[global] Instance cell_le_trans : Transitive cell_le.
Proof.
  intros [|x|x|s] [|y|y|t] [|z|z|u]; simpl; try tauto; try lia.
  rewrite !Is_true_true. apply string_leb_trans.
Qed.

(** X6.  The options of a field are its distinct values, each once, in
    ascending order: numbers by size, texts by code point.  (A column read
    from a CSV file holds integers only, floats only or texts only; the
    order between the kinds is a convention of the model.) *)
Theorem get_filter_options_sorted (df : list Row) (field : string) :
  StronglySorted cell_le (get_filter_options df field) ∧
  NoDup (get_filter_options df field) ∧
  (∀ v, v ∈ get_filter_options df field ↔ ∃ r, r ∈ df ∧ row_get field r = v) ∧
  (∀ x y, cell_le (Num x) (Num y) ↔ x ≤ y) ∧
  (∀ s t, cell_le (Str s) (Str t) ↔ String.leb s t = true) ∧
  (∀ x y, cell_le (Flt x) (Flt y) ↔ F64.key x ≤ F64.key y) ∧
  cell_le (Flt (F64.dyadic (-3) (-1))) (Flt (F64.dyadic 1 (-2))) ∧
  ¬ cell_le (Flt (F64.of_Z 2)) (Flt (F64.dyadic 3 (-1))).
Proof.
  unfold get_filter_options. split_and!.
  - apply StronglySorted_merge_sort; apply _.
  - rewrite merge_sort_Permutation. apply NoDup_unique.
  - intros v. rewrite merge_sort_Permutation, elem_of_unique, list_elem_of_fmap.
    naive_solver.
  - done.
  - intros s t. simpl. by rewrite Is_true_true.
  - done.
  - apply (bool_decide_unpack _). vm_compute. exact I.
  - apply (bool_decide_eq_false_1 _). vm_compute. reflexivity.
Qed.

(** ** Aggregates (lines 176-183) *)

#[global] Instance date_le_total : Total date_le.
Proof. intros a b. unfold date_le. lia. Qed.

#[global] Instance date_le_trans : Transitive date_le.
Proof. intros a b c. unfold date_le. lia. Qed.

Section AggregateLists.
Variable float_sum : list spec_float → spec_float.

Lemma groupby_sum_key_list (value : Row → cell) (days : Z) (df : list Row) :
  agg_key <$> groupby_sum float_sum value days df =
  match min_date df with
  | None => []
  | Some t0 =>
      merge_sort key_le (unique (omap (group_key (normalize t0) (days * day_ns)) df))
  end.
Proof.
  unfold groupby_sum. destruct (min_date df) as [t0|]; [|done].
  rewrite <- list_fmap_compose.
  rewrite (list_fmap_ext _ id) by (by intros ? [??] ?).
  by rewrite list_fmap_id.
Qed.

Lemma min_date_None (df : list Row) (r : Row) :
  min_date df = None → r ∈ df → date r = None.
Proof.
  unfold min_date. destruct (dates df) as [|t ts] eqn:E; [|done].
  intros _ Hr. destruct (date r) as [d|] eqn:Hd; [|done].
  assert (d ∈ dates df) as Hin by (apply list_elem_of_omap; eauto).
  rewrite E in Hin. by apply elem_of_nil in Hin.
Qed.


(** The figures of one title in an int64 column. *)
Lemma groupby_sum_title (value : Row → cell) (days : Z) (df : list Row) (t0 : Z) (t : cell) :
  dtype_of (value <$> df) = int64 → min_date df = Some t0 →
  (λ a, int_of (a_value a)) <$>
    filter (λ a, a_title a = t) (groupby_sum float_sum value days df) =
  (λ k, I64.wrap (sum_Z ((λ r, int_of (value r)) <$>
                         group_rows (normalize t0) (days * day_ns) k df))) <$>
    filter (λ k : cell * Z, k.1 = t)
      (merge_sort key_le (unique (omap (group_key (normalize t0) (days * day_ns)) df))).
Proof.
  intros Hd Hmin. unfold groupby_sum. rewrite Hmin, Hd, filter_fmap.
  cbn [a_title]. rewrite <- list_fmap_compose.
  apply list_fmap_ext. intros _ k _. cbn [compose a_value series_sum int_of].
  by rewrite I64_sum_wrap, <- list_fmap_compose.
Qed.

(** The exact sales of one title, bucket by bucket. *)
Lemma title_by_groups (value : Row → cell) (first freq : Z) (df : list Row) (t : cell) :
  t ≠ NaN →
  sum_Z ((λ k, sum_Z ((λ r, int_of (value r)) <$> group_rows first freq k df)) <$>
           filter (λ k : cell * Z, k.1 = t)
             (merge_sort key_le (unique (omap (group_key first freq) df)))) =
  sum_Z ((λ r, int_of (value r)) <$>
         filter (λ r, row_get "title" r = t ∧ is_Some (date r)) df).
Proof.
  intros Ht.
  set (keys := unique (omap (group_key first freq) df)).
  rewrite (sum_Z_Permutation _
    ((λ k, sum_Z ((λ r, int_of (value r)) <$> group_rows first freq k df)) <$>
      filter (λ k : cell * Z, k.1 = t) keys)).
  2:{ apply fmap_Permutation. by rewrite merge_sort_Permutation. }
  rewrite <- (sum_by_groups (group_key first freq) (λ r, int_of (value r))
                (filter (λ k : cell * Z, k.1 = t) keys)).
  - f_equal. apply list_fmap_ext. intros i k Hk.
    apply list_elem_of_lookup_2, list_elem_of_filter in Hk as [Hk _].
    f_equal. f_equal. unfold group_rows. rewrite list_filter_filter.
    apply list_filter_iff. intros r. split; [|tauto].
    intros Hr. split; [done|].
    apply group_key_Some in Hr as (Hr1 & _ & d & Hr2 & _).
    split; [congruence|by eexists].
  - apply NoDup_filter, NoDup_unique.
  - intros r [[Hr1 [d Hr2]] Hr]%list_elem_of_filter.
    exists (t, bin_edge first freq d).
    assert (group_key first freq r = Some (t, bin_edge first freq d)) as Hk.
    { unfold group_key. rewrite Hr1, Hr2. by destruct t. }
    split; [done|]. apply list_elem_of_filter. split; [done|].
    apply elem_of_unique, list_elem_of_omap. eauto.
Qed.

End AggregateLists.

(** X7.  Both aggregates are handed to the charts in ascending order of
    bucket start. *)
Theorem aggregates_sorted_by_date (float_sum : list spec_float → spec_float)
    (days : Z) (filtered : list Row) :
  StronglySorted (λ a b, a_date a ≤ a_date b) (sales_agg float_sum days filtered) ∧
  StronglySorted (λ a b, a_date a ≤ a_date b) (restocks_agg float_sum days filtered).
Proof.
  split; apply (StronglySorted_merge_sort date_le).
Qed.

(** X8.  The two aggregates describe the same series and buckets, and only
    buckets in which the series has a row: a series without row in a bucket
    gets no point there, not a zero. *)
Theorem aggregates_same_buckets (float_sum : list spec_float → spec_float)
    (days : Z) (filtered : list Row) :
  agg_key <$> sales_agg float_sum days filtered ≡ₚ
  agg_key <$> restocks_agg float_sum days filtered ∧
  (0 < days →
   ∀ a, a ∈ sales_agg float_sum days filtered ∨ a ∈ restocks_agg float_sum days filtered →
        a_title a ≠ NaN ∧
        ∃ r, r ∈ filtered ∧ in_bucket (a_title a) (a_date a) (days * day_ns) r).
Proof.
  split.
  - unfold sales_agg, restocks_agg, sort_values_date.
    rewrite !merge_sort_Permutation, <- list_fmap_compose.
    change (agg_key ∘ abs_value) with agg_key.
    by rewrite !groupby_sum_key_list.
  - intros Hd a Ha.
    assert (∃ value a', a' ∈ groupby_sum float_sum value days filtered ∧
                        a_title a = a_title a' ∧ a_date a = a_date a')
      as (value & a' & Ha' & -> & ->).
    { destruct Ha as [Ha%sales_agg_elem|(a' & -> & Ha')%restocks_agg_elem]; eauto. }
    apply groupby_sum_elem in Ha' as (t0 & k & r & _ & Hr & Hk & ->).
    cbn [a_title a_date]. pose proof Hk as (Ht & Hna & d & Hdate & Hb)%group_key_Some.
    split; [done|]. exists r. split; [done|].
    assert (r ∈ filter (in_bucket k.1 k.2 (days * day_ns)) filtered) as Hin.
    { rewrite <- (group_rows_bucket _ _ _ _ r (day_freq_pos days Hd) Hk).
      by apply list_elem_of_filter. }
    by apply list_elem_of_filter in Hin as [? _].
Qed.

Lemma aggregates_same_buckets_witness :
  let a := mkAgg (Str "A") 1704067200000000000 (Num 3) in
  ∃ r, r ∈ restock_pair ∧ in_bucket (a_title a) (a_date a) (7 * day_ns) r.
Proof.
  intros a.
  destruct (aggregates_same_buckets F64.sum 7 restock_pair) as [_ H].
  apply (H ltac:(lia) a). right.
  apply (bool_decide_unpack _). vm_compute. exact I.
Defined.



(** X10.  In an int64 sales column the figures of the buckets of a title
    add up, in 64-bit arithmetic, to the sales of the dated rows of the
    title, and exactly when no bucket sum of the title leaves the int64
    range: every line of the sales chart carries the whole of its
    series. *)
Theorem sales_agg_title_total (float_sum : list spec_float → spec_float)
    (days : Z) (filtered : list Row) (t : cell) :
  0 < days → t ≠ NaN → dtype_of (sales <$> filtered) = int64 →
  let figures := filter (λ a, a_title a = t) (sales_agg float_sum days filtered) in
  let total := sum_Z ((λ r, int_of (sales r)) <$>
                      filter (λ r, row_get "title" r = t ∧ is_Some (date r)) filtered) in
  I64.wrap (sum_Z ((λ a, int_of (a_value a)) <$> figures)) = I64.wrap total ∧
  ((∀ a, a ∈ figures →
      - 2 ^ 63 ≤ sum_Z ((λ r, int_of (sales r)) <$>
                        filter (in_bucket t (a_date a) (days * day_ns)) filtered) < 2 ^ 63) →
   sum_Z ((λ a, int_of (a_value a)) <$> figures) = total).
Proof.
  intros Hd Ht Hint figures total.
  assert (sum_Z ((λ a, int_of (a_value a)) <$> figures) =
          sum_Z ((λ a, int_of (a_value a)) <$>
                 filter (λ a, a_title a = t) (groupby_sum float_sum sales days filtered)))
    as Hperm.
  { unfold figures, sales_agg, sort_values_date.
    apply sum_Z_Permutation. by rewrite merge_sort_Permutation. }
  rewrite Hperm.
  destruct (min_date filtered) as [t0|] eqn:Hmin.
  - rewrite (groupby_sum_title float_sum sales days filtered t0 t Hint Hmin).
    set (first := normalize t0). set (freq := days * day_ns).
    split.
    + rewrite (wrap_sum_wrap
        (λ k, sum_Z ((λ r, int_of (sales r)) <$> group_rows first freq k filtered))).
      f_equal. by apply title_by_groups.
    + intros Hfit. unfold total. rewrite <- (title_by_groups sales first freq filtered t Ht).
      f_equal. apply list_fmap_ext. intros _ k Hk%list_elem_of_lookup_2.
      apply list_elem_of_filter in Hk as [Hkt Hk].
      apply wrap_small.
      rewrite merge_sort_Permutation in Hk.
      apply elem_of_unique, list_elem_of_omap in Hk as (r0 & Hr0 & Hk).
      rewrite (group_rows_bucket _ _ _ _ r0 (day_freq_pos days Hd) Hk). rewrite Hkt.
      pose (a := mkAgg k.1 k.2 (series_sum float_sum (dtype_of (sales <$> filtered))
                                  (sales <$> group_rows first freq k filtered))).
      apply (Hfit a). unfold figures. apply list_elem_of_filter. split; [done|].
      apply sales_agg_elem, groupby_sum_elem. by exists t0, k, r0.
  - unfold groupby_sum. rewrite Hmin, filter_nil.
    assert (filter (λ r, row_get "title" r = t ∧ is_Some (date r)) filtered = []) as Hnil.
    { clear -Hmin. induction filtered as [|r l IH]; [done|].
      rewrite filter_cons_False.
      - apply IH. unfold min_date, dates in *. simpl in Hmin.
        destruct (date r); [done|]. exact Hmin.
      - intros [_ [d Hd]]. rewrite (min_date_None _ r Hmin) in Hd; [done|by left]. }
    unfold total. rewrite Hnil. done.
Qed.

Lemma sales_agg_title_total_witness :
  sum_Z ((λ a, int_of (a_value a)) <$>
         filter (λ a, a_title a = Str "A") (sales_agg F64.sum 7 restock_pair)) = 10.
Proof.
  destruct (sales_agg_title_total F64.sum 7 restock_pair (Str "A")) as [_ H];
    [lia|discriminate|vm_compute; reflexivity|].
  rewrite H; [vm_compute; reflexivity|].
  intros a Ha.
  assert (a = mkAgg (Str "A") 1704067200000000000 (Num 10)) as ->.
  { revert Ha. vm_compute. intros Ha. apply list_elem_of_singleton in Ha. exact Ha. }
  vm_compute. split; [discriminate|reflexivity].
Defined.

(** ** Loading (lines 12-79) *)

(** X11.  With all identifier columns present, an export without a column
    containing [_sales] is refused with the sales message, also when the
    restocks columns are missing too; one with sales but without restocks
    columns is refused with the restocks message.  Either way no row is
    returned. *)
Theorem load_data_missing_family (str_strip str_lower : string → string)
    (to_datetime : list string → string → option Z) (raw : DataFrame) :
  let df := normalize_columns str_strip str_lower raw in
  missing_columns df = [] →
  (sales_cols df = [] →
   load_data str_strip str_lower to_datetime (ReadOk raw) =
     ([st_write_raw_columns (columns raw); st_write_normalized_columns (columns df);
       st_error_no_sales], [])) ∧
  (sales_cols df ≠ [] → restocks_cols df = [] →
   load_data str_strip str_lower to_datetime (ReadOk raw) =
     ([st_write_raw_columns (columns raw); st_write_normalized_columns (columns df);
       st_error_no_restocks], [])).
Proof.
  intros df Hm. unfold load_data, load_frame. cbv zeta.
  change (missing_columns (normalize_columns str_strip str_lower (infer_dtypes raw)))
    with (missing_columns df).
  rewrite Hm.
  change (sales_cols (dropna required_columns
            (normalize_columns str_strip str_lower (infer_dtypes raw))))
    with (sales_cols df).
  change (restocks_cols (dropna required_columns
            (normalize_columns str_strip str_lower (infer_dtypes raw))))
    with (restocks_cols df).
  split.
  - by intros ->.
  - intros Hs Hr. rewrite Hr. by destruct (sales_cols df).
Qed.

Lemma load_data_missing_family_witness :
  load_data AsciiStr.strip AsciiStr.lower IsoDate.to_datetime (ReadOk frame_without_sales) =
    ([st_write_raw_columns (columns frame_without_sales);
      st_write_normalized_columns (columns frame_without_sales);
      st_error_no_sales], []).
Proof.
  destruct (load_data_missing_family AsciiStr.strip AsciiStr.lower IsoDate.to_datetime
              frame_without_sales) as [H _].
  - vm_compute. reflexivity.
  - apply H. vm_compute. reflexivity.
Defined.

(** *** Dtypes along the loader *)

Lemma existsb_fmap {A B} (f : A → B) (p : B → bool) (l : list A) :
  existsb p (f <$> l) = existsb (p ∘ f) l.
Proof. induction l as [|x l IH]; [done|]. rewrite fmap_cons. simpl. by rewrite IH. Qed.

Lemma existsb_ext_in {A} (p q : A → bool) (l : list A) :
  (∀ x, x ∈ l → p x = q x) → existsb p l = existsb q l.
Proof.
  induction l as [|x l IH]; intros H; [done|]. simpl.
  rewrite (H x) by (by left). rewrite IH; [done|]. intros y Hy. apply H. by right.
Qed.

Lemma existsb_true {A} (p : A → bool) (l : list A) :
  existsb p l = true ↔ ∃ x, x ∈ l ∧ p x = true.
Proof. rewrite existsb_exists. by setoid_rewrite list_elem_of_In. Qed.

Lemma existsb_false {A} (p : A → bool) (l : list A) :
  existsb p l = false ↔ ∀ x, x ∈ l → p x = false.
Proof.
  rewrite <- not_true_iff_false, existsb_true. split.
  - intros H x Hx. apply not_true_iff_false. intros Hp. apply H. eauto.
  - intros H (x & Hx & Hp). rewrite (H x Hx) in Hp. done.
Qed.

Lemma is_text_to_float (c : cell) : is_text (to_float c) = is_text c.
Proof. by destruct c. Qed.

Lemma is_float_to_float (c : cell) : is_text c = false → is_float (to_float c) = true.
Proof. by destruct c. Qed.

(** Converting a column to its dtype does not change the dtype, and
    neither does filling it. *)
Lemma fmap_astype_id (d : dtype) (col : list cell) :
  d ≠ float64 → astype d <$> col = col.
Proof.
  intros Hd. rewrite <- (list_fmap_id col) at 2. apply list_fmap_ext.
  intros _ c _. by destruct d.
Qed.

Lemma dtype_of_astype (col : list cell) :
  dtype_of (astype (dtype_of col) <$> col) = dtype_of col.
Proof.
  destruct (dtype_of col) eqn:Ed; [by rewrite fmap_astype_id| |by rewrite fmap_astype_id].
  unfold dtype_of in *.
  destruct (existsb is_text col) eqn:Et; [done|].
  destruct (existsb is_float col) eqn:Ef; [|done].
  rewrite !existsb_fmap.
  rewrite (existsb_ext_in (is_text ∘ astype float64) is_text)
    by (intros; apply is_text_to_float).
  rewrite Et.
  assert (existsb (is_float ∘ astype float64) col = true) as ->; [|done].
  apply existsb_true in Ef as (c & Hc & Hf). apply existsb_true.
  exists c. split; [done|]. by destruct c.
Qed.

Lemma dtype_of_fillna (col : list cell) :
  dtype_of (fillna0 (dtype_of col) <$> col) = dtype_of col.
Proof.
  assert (dtype_of col = object ∧ existsb is_text col = true ∨
          existsb is_text col = false ∧
          (dtype_of col = float64 ∧ existsb is_float col = true ∨
           dtype_of col = int64 ∧ existsb is_float col = false)) as Hcases.
  { unfold dtype_of. destruct (existsb is_text col); [by left|right].
    destruct (existsb is_float col); auto. }
  destruct Hcases as [[Hd Et]|[Et [[Hd Ef]|[Hd Ef]]]];
    rewrite Hd; unfold dtype_of; rewrite !existsb_fmap.
  - assert (existsb (is_text ∘ fillna0 object) col = true) as ->; [|done].
    apply existsb_true in Et as (c & Hc & Hf). apply existsb_true.
    exists c. split; [done|]. by destruct c.
  - assert (existsb (is_text ∘ fillna0 float64) col = false) as ->.
    { apply existsb_false. intros c Hc.
      pose proof (proj1 (existsb_false _ _) Et c Hc). by destruct c. }
    assert (existsb (is_float ∘ fillna0 float64) col = true) as ->; [|done].
    apply existsb_true in Ef as (c & Hc & Hf). apply existsb_true.
    exists c. split; [done|]. by destruct c.
  - assert (existsb (is_text ∘ fillna0 int64) col = false) as ->.
    { apply existsb_false. intros c Hc.
      pose proof (proj1 (existsb_false _ _) Et c Hc). by destruct c. }
    assert (existsb (is_float ∘ fillna0 int64) col = false) as ->; [|done].
    apply existsb_false. intros c Hc.
    pose proof (proj1 (existsb_false _ _) Ef c Hc). by destruct c.
Qed.

(** The columns of the returned frame, from those of the join. *)
Lemma fill_merge_held (left right : list (melted (option Z))) :
  let J := join_rows left right in
  fill_metrics (merge_outer left right) =
    map_metrics (held (dtype_of (sales <$> J))) (held (dtype_of (restocks <$> J))) <$> J ∧
  dtype_of (sales <$> fill_metrics (merge_outer left right)) = dtype_of (sales <$> J) ∧
  dtype_of (restocks <$> fill_metrics (merge_outer left right)) = dtype_of (restocks <$> J).
Proof.
  intros J.
  set (ds := dtype_of (sales <$> J)). set (dr := dtype_of (restocks <$> J)).
  set (M := merge_outer left right).
  assert (M = map_metrics (astype ds) (astype dr) <$> J) as HM by reflexivity.
  assert (dtype_of (sales <$> M) = ds) as Hds.
  { assert (sales <$> M = astype ds <$> (sales <$> J)) as ->
      by (rewrite HM, <- !list_fmap_compose; by apply list_fmap_ext).
    apply dtype_of_astype. }
  assert (dtype_of (restocks <$> M) = dr) as Hdr.
  { assert (restocks <$> M = astype dr <$> (restocks <$> J)) as ->
      by (rewrite HM, <- !list_fmap_compose; by apply list_fmap_ext).
    apply dtype_of_astype. }
  assert (fill_metrics M = map_metrics (fillna0 ds) (fillna0 dr) <$> M) as Hfill
    by (unfold fill_metrics; by rewrite Hds, Hdr).
  rewrite Hfill. split_and!.
  - rewrite HM, <- list_fmap_compose. by apply list_fmap_ext.
  - assert (sales <$> (map_metrics (fillna0 ds) (fillna0 dr) <$> M) =
            fillna0 ds <$> (sales <$> M)) as ->
      by (rewrite <- !list_fmap_compose; by apply list_fmap_ext).
    rewrite <- Hds. apply dtype_of_fillna.
  - assert (restocks <$> (map_metrics (fillna0 ds) (fillna0 dr) <$> M) =
            fillna0 dr <$> (restocks <$> M)) as ->
      by (rewrite <- !list_fmap_compose; by apply list_fmap_ext).
    rewrite <- Hdr. apply dtype_of_fillna.
Qed.

(** A cell that [melt] has converted is held like the cell itself. *)
Lemma held_melted (vals col : list cell) (c : cell) :
  c ∈ vals → astype (dtype_of vals) c ∈ col →
  (∀ v, v ∈ col → v = NaN ∨ ∃ c', c' ∈ vals ∧ v = astype (dtype_of vals) c') →
  held (dtype_of col) (astype (dtype_of vals) c) = held (dtype_of col) c.
Proof.
  intros Hc Hin Hcol.
  destruct (dtype_of vals) eqn:Ev; [done| |done]. cbn [astype] in *.
  assert (∀ c', c' ∈ vals → is_text c' = false) as Hvals.
  { intros c' Hc'. unfold dtype_of in Ev.
    destruct (existsb is_text vals) eqn:Et; [done|].
    by apply (proj1 (existsb_false _ _) Et). }
  assert (dtype_of col = float64) as ->.
  { unfold dtype_of.
    assert (existsb is_text col = false) as ->.
    { apply existsb_false. intros v Hv.
      destruct (Hcol v Hv) as [->|(c' & Hc' & ->)]; [done|].
      rewrite is_text_to_float. by apply Hvals. }
    assert (existsb is_float col = true) as ->; [|done].
    apply existsb_true. exists (to_float c). split; [done|].
    apply is_float_to_float. by apply Hvals. }
  unfold held. cbn [astype]. by rewrite to_float_idemp.
Qed.

Section LoadCells.
Variable str_strip str_lower : string → string.
Variable to_datetime : list string → string → option Z.

Lemma load_frame_rows (raw : DataFrame) :
  let df := dropna required_columns (normalize_columns str_strip str_lower (infer_dtypes raw)) in
  missing_columns (normalize_columns str_strip str_lower raw) = [] →
  sales_cols df ≠ [] → restocks_cols df ≠ [] →
  (load_data str_strip str_lower to_datetime (ReadOk raw)).2 =
  fill_metrics (merge_outer (sales_df to_datetime df) (restocks_df to_datetime df)).
Proof.
  intros df Hm Hs Hr. unfold load_data, load_frame. cbv zeta.
  change (missing_columns (normalize_columns str_strip str_lower (infer_dtypes raw)))
    with (missing_columns (normalize_columns str_strip str_lower raw)).
  rewrite Hm. fold df.
  destruct (sales_cols df); [done|]. by destruct (restocks_cols df).
Qed.

Lemma load_data_in_merge (raw : DataFrame) (x : Row) :
  let df := dropna required_columns (normalize_columns str_strip str_lower (infer_dtypes raw)) in
  x ∈ (load_data str_strip str_lower to_datetime (ReadOk raw)).2 →
  (load_data str_strip str_lower to_datetime (ReadOk raw)).2 =
    fill_metrics (merge_outer (sales_df to_datetime df) (restocks_df to_datetime df)).
Proof.
  intros df. unfold load_data, load_frame. cbv zeta. fold df.
  destruct (missing_columns _); [|by intros ?%elem_of_nil].
  destruct (sales_cols df); [by intros ?%elem_of_nil|].
  destruct (restocks_cols df); [by intros ?%elem_of_nil|]. done.
Qed.

(** Every row of the left frame and every row of the right frame is found
    in the join, with its key and its measurement. *)
Lemma join_rows_covers (left right : list (melted (option Z))) :
  (∀ l, l ∈ left →
     ∃ x, x ∈ join_rows left right ∧ row_key x = m_key l ∧ sales x = m_value l) ∧
  (∀ r, r ∈ right →
     ∃ x, x ∈ join_rows left right ∧ row_key x = m_key r ∧ restocks x = m_value r).
Proof.
  split.
  - intros l Hl.
    destruct (filter (λ r, m_key r = m_key l) right) as [|p ps] eqn:E.
    + exists (mkRow (m_ids l) (m_date l) (m_value l) NaN).
      split; [|done]. apply join_rows_elem. right; left.
      exists l. split; [done|]. split; [|done]. intros r Hr Hk.
      assert (r ∈ filter (λ r, m_key r = m_key l) right) as Hin
        by (by apply list_elem_of_filter).
      rewrite E in Hin. by apply elem_of_nil in Hin.
    + assert (p ∈ filter (λ r, m_key r = m_key l) right) as [Hk Hp]%list_elem_of_filter
        by (rewrite E; by left).
      exists (mkRow (m_ids l) (m_date l) (m_value l) (m_value p)).
      split; [|done]. apply join_rows_elem. left. by exists l, p.
  - intros r Hr. destruct (decide (m_key r ∈ m_key <$> left)) as [Hin|Hout].
    + apply list_elem_of_fmap in Hin as (l & Hk & Hl).
      exists (mkRow (m_ids l) (m_date l) (m_value l) (m_value r)).
      split; [|by rewrite Hk]. apply join_rows_elem. left. by exists l, r.
    + exists (mkRow (m_ids r) (m_date r) NaN (m_value r)).
      split; [|done]. apply join_rows_elem. right; right. by exists r.
Qed.

(** The measurements of the join: left open, or a converted cell of the
    family. *)
Lemma join_rows_cells (df : DataFrame) (x : Row) :
  x ∈ join_rows (sales_df to_datetime df) (restocks_df to_datetime df) →
  (sales x = NaN ∨
   ∃ c, c ∈ m_value <$> stack df required_columns (sales_cols df) ∧
        sales x = astype (value_dtype df (sales_cols df)) c) ∧
  (restocks x = NaN ∨
   ∃ c, c ∈ m_value <$> stack df required_columns (restocks_cols df) ∧
        restocks x = astype (value_dtype df (restocks_cols df)) c).
Proof.
  assert (∀ vars marker l, l ∈ long_frame to_datetime df vars marker →
            ∃ c, c ∈ m_value <$> stack df required_columns vars ∧
                 m_value l = astype (value_dtype df vars) c) as Hlong.
  { intros vars marker l (col & row & t & Hcol & Hrow & _ & ->)%long_frame_elem.
    eexists. split; [|done]. apply list_elem_of_fmap.
    exists (mkMelted (id_tuple df row) col
              (at_label (columns df) row col)).
    split; [done|]. apply stack_elem. by exists col, row. }
  intros [(l & r & Hl & Hr & _ & ->) | [(l & Hl & _ & ->) | (r & Hr & _ & ->)]]%join_rows_elem;
    cbn [sales restocks]; split; eauto.
Qed.


(** How the returned frame holds a cell of a column that is read as a
    date. *)
Lemma held_sales_cell (df : DataFrame) (x : Row) (row : list cell) (col : string) :
  let J := join_rows (sales_df to_datetime df) (restocks_df to_datetime df) in
  x ∈ J → row ∈ data df → col ∈ sales_cols df →
  sales x = astype (value_dtype df (sales_cols df)) (at_label (columns df) row col) →
  held (dtype_of (sales <$> J)) (sales x) =
  held (dtype_of (sales <$> J)) (at_label (columns df) row col).
Proof.
  intros J Hx Hrow Hcol Hv. rewrite Hv. unfold value_dtype.
  apply held_melted.
  - apply list_elem_of_fmap.
    exists (mkMelted (id_tuple df row) col
              (at_label (columns df) row col)).
    split; [done|]. apply stack_elem. by exists col, row.
  - apply list_elem_of_fmap. exists x. split; [by rewrite Hv|done].
  - intros v (y & -> & Hy)%list_elem_of_fmap.
    by destruct (join_rows_cells df y Hy) as [? _].
Qed.

Lemma held_restocks_cell (df : DataFrame) (x : Row) (row : list cell) (col : string) :
  let J := join_rows (sales_df to_datetime df) (restocks_df to_datetime df) in
  x ∈ J → row ∈ data df → col ∈ restocks_cols df →
  restocks x = astype (value_dtype df (restocks_cols df)) (at_label (columns df) row col) →
  held (dtype_of (restocks <$> J)) (restocks x) =
  held (dtype_of (restocks <$> J)) (at_label (columns df) row col).
Proof.
  intros J Hx Hrow Hcol Hv. rewrite Hv. unfold value_dtype.
  apply held_melted.
  - apply list_elem_of_fmap.
    exists (mkMelted (id_tuple df row) col
              (at_label (columns df) row col)).
    split; [done|]. apply stack_elem. by exists col, row.
  - apply list_elem_of_fmap. exists x. split; [by rewrite Hv|done].
  - intros v (y & -> & Hy)%list_elem_of_fmap.
    by destruct (join_rows_cells df y Hy) as [_ ?].
Qed.

End LoadCells.

(** X12.  Nothing of a valid export is lost: for every row kept and every
    sales column whose name is read as a date among the sales columns, the
    returned frame has a row with the identifiers of that row, that date
    and that cell as sales, in the dtype of the returned sales column and
    with 0 standing for an empty cell; likewise for every restocks
    column. *)
Theorem load_data_keeps_cells (str_strip str_lower : string → string)
    (to_datetime : list string → string → option Z) (raw : DataFrame)
    (row : list cell) (col : string) (t : Z) :
  let df := dropna required_columns (normalize_columns str_strip str_lower (infer_dtypes raw)) in
  let merged_df := (load_data str_strip str_lower to_datetime (ReadOk raw)).2 in
  missing_columns (normalize_columns str_strip str_lower raw) = [] →
  sales_cols df ≠ [] → restocks_cols df ≠ [] →
  row ∈ data df →
  (col ∈ sales_cols df →
   to_datetime (date_column df (sales_cols df) "_sales")
               (PyStr.replace "_sales" "" col) = Some t →
   ∃ r, r ∈ merged_df ∧ ids r = id_tuple df row ∧ date r = Some t ∧
        sales r = held (dtype_of (sales <$> merged_df)) (at_label (columns df) row col)) ∧
  (col ∈ restocks_cols df →
   to_datetime (date_column df (restocks_cols df) "_restocks")
               (PyStr.replace "_restocks" "" col) = Some t →
   ∃ r, r ∈ merged_df ∧ ids r = id_tuple df row ∧ date r = Some t ∧
        restocks r =
          held (dtype_of (restocks <$> merged_df)) (at_label (columns df) row col)).
Proof.
  intros df merged_df Hm Hs Hr Hrow. unfold merged_df.
  rewrite (load_frame_rows str_strip str_lower to_datetime raw Hm Hs Hr). fold df.
  destruct (fill_merge_held (sales_df to_datetime df) (restocks_df to_datetime df))
    as (Heq & Hds & Hdr).
  rewrite Hds, Hdr, Heq.
  destruct (join_rows_covers (sales_df to_datetime df) (restocks_df to_datetime df))
    as [HL HR].
  split; intros Hcol Ht.
  - destruct (HL (mkMelted (id_tuple df row) (Some t)
                    (astype (value_dtype df (sales_cols df))
                            (at_label (columns df) row col))))
      as (x & Hx & Hk & Hv).
    { apply long_frame_elem. by exists col, row, t. }
    eexists. split; [apply list_elem_of_fmap_2; exact Hx|].
    injection Hk as Hi Hd. cbn [map_metrics ids date sales m_value] in *.
    split_and!; [done..|].
    by apply (held_sales_cell to_datetime df x row col).
  - destruct (HR (mkMelted (id_tuple df row) (Some t)
                    (astype (value_dtype df (restocks_cols df))
                            (at_label (columns df) row col))))
      as (x & Hx & Hk & Hv).
    { apply long_frame_elem. by exists col, row, t. }
    eexists. split; [apply list_elem_of_fmap_2; exact Hx|].
    injection Hk as Hi Hd. cbn [map_metrics ids date restocks m_value] in *.
    split_and!; [done..|].
    by apply (held_restocks_cell to_datetime df x row col).
Qed.

Lemma load_data_keeps_cells_witness :
  ∃ r, r ∈ (load_data AsciiStr.strip AsciiStr.lower IsoDate.to_datetime (ReadOk sample_frame)).2 ∧
       ids r = [Str "A"; Str "w"; Num 2; Str "t"; Str "US"; Str "web"] ∧
       date r = Some 1704672000000000000 ∧ sales r = Flt F64.zero.
Proof.
  destruct (load_data_keeps_cells AsciiStr.strip AsciiStr.lower IsoDate.to_datetime
              sample_frame
              [Str "A"; Str "w"; Num 2; Str "t"; Str "US"; Str "web";
               Num 1; NaN; Num 2]
              "2024-01-08_sales" 1704672000000000000) as [H _].
  - vm_compute. reflexivity.
  - vm_compute. discriminate.
  - vm_compute. discriminate.
  - apply (bool_decide_unpack _). vm_compute. exact I.
  - destruct H as (r & Hr & Hi & Hd & Hv).
    + apply (bool_decide_unpack _). vm_compute. exact I.
    + vm_compute. reflexivity.
    + exists r. split; [exact Hr|]. split; [exact Hi|]. split; [exact Hd|].
      rewrite Hv. vm_compute. reflexivity.
Defined.

(** X13.  No figure is invented: in a returned row the sales value is a cell
    of a sales column of an input row with the same identifiers, under the
    date the column is read as (in the dtype of the returned column, 0 for
    an empty cell), or it is the 0 that fills an open cell and no sales
    column gives that date for those identifiers; likewise for restocks;
    and at least one of the two comes from a column. *)
Theorem load_data_values_origin (str_strip str_lower : string → string)
    (to_datetime : list string → string → option Z) (raw : DataFrame)
    (x : Row) :
  let df := dropna required_columns (normalize_columns str_strip str_lower (infer_dtypes raw)) in
  let merged_df := (load_data str_strip str_lower to_datetime (ReadOk raw)).2 in
  let from_column (cols : list string) (marker : string) (d : dtype) (value : cell) (t : Z) :=
    ∃ row col, row ∈ data df ∧ col ∈ cols ∧
      to_datetime (date_column df cols marker) (PyStr.replace marker "" col) = Some t ∧
      id_tuple df row = ids x ∧ value = held d (at_label (columns df) row col) in
  let filled (cols : list string) (marker : string) (d : dtype) (value : cell) (t : Z) :=
    value = fillna0 d NaN ∧
    ∀ row col, row ∈ data df → col ∈ cols → id_tuple df row = ids x →
               to_datetime (date_column df cols marker) (PyStr.replace marker "" col) ≠ Some t in
  let ds := dtype_of (sales <$> merged_df) in
  let dr := dtype_of (restocks <$> merged_df) in
  x ∈ merged_df →
  ∃ t, date x = Some t ∧
    (from_column (sales_cols df) "_sales" ds (sales x) t ∨
     filled (sales_cols df) "_sales" ds (sales x) t) ∧
    (from_column (restocks_cols df) "_restocks" dr (restocks x) t ∨
     filled (restocks_cols df) "_restocks" dr (restocks x) t) ∧
    (from_column (sales_cols df) "_sales" ds (sales x) t ∨
     from_column (restocks_cols df) "_restocks" dr (restocks x) t).
Proof.
  intros df merged_df from_column filled ds dr Hx.
  pose proof (load_data_in_merge str_strip str_lower to_datetime raw x Hx) as Hload.
  fold df in Hload. unfold ds, dr, merged_df in *. rewrite Hload in *. clear Hload.
  destruct (fill_merge_held (sales_df to_datetime df) (restocks_df to_datetime df))
    as (Heq & Hds & Hdr).
  rewrite Hds, Hdr. rewrite Heq in Hx. clear Heq Hds Hdr.
  set (J := join_rows (sales_df to_datetime df) (restocks_df to_datetime df)) in *.
  apply list_elem_of_fmap in Hx as (y & Hxy & Hy).
  pose proof (held_sales_cell to_datetime df y) as Hsales.
  pose proof (held_restocks_cell to_datetime df y) as Hrestocks.
  cbv zeta in Hsales, Hrestocks. fold J in Hsales, Hrestocks.
  assert (ids x = ids y ∧ date x = date y ∧
          sales x = held (dtype_of (sales <$> J)) (sales y) ∧
          restocks x = held (dtype_of (restocks <$> J)) (restocks y))
    as (Hi & Hd & Hs & Hr) by (by subst x).
  clear Hxy. unfold from_column, filled. rewrite Hi, Hd, Hs, Hr.
  pose proof Hy as
    [(l & r & Hl & Hr' & Hk & Ey) | [(l & Hl & Hno & Ey) | (r & Hr' & Hno & Ey)]]%join_rows_elem.
  - apply long_frame_elem in Hl as (col & row & t & Hcol & Hrow & Ht & ->).
    apply long_frame_elem in Hr' as (col' & row' & t' & Hcol' & Hrow' & Ht' & ->).
    pose proof (f_equal fst Hk) as Hids. pose proof (f_equal snd Hk) as Hdate.
    cbn [fst snd m_key m_ids m_date] in Hids, Hdate. injection Hdate as ->.
    exists t. rewrite Ey in *. cbn [ids date sales restocks m_ids m_date m_value] in *.
    split; [done|].
    assert (∃ row0 col0, row0 ∈ data df ∧ col0 ∈ sales_cols df ∧
              to_datetime (date_column df (sales_cols df) "_sales")
                          (PyStr.replace "_sales" "" col0) = Some t ∧
              id_tuple df row0 = id_tuple df row ∧
              held (dtype_of (sales <$> J))
                   (astype (value_dtype df (sales_cols df)) (at_label (columns df) row col)) =
              held (dtype_of (sales <$> J)) (at_label (columns df) row0 col0)) as HS.
    { exists row, col. split_and!; [done..|]. by apply Hsales. }
    assert (∃ row0 col0, row0 ∈ data df ∧ col0 ∈ restocks_cols df ∧
              to_datetime (date_column df (restocks_cols df) "_restocks")
                          (PyStr.replace "_restocks" "" col0) = Some t ∧
              id_tuple df row0 = id_tuple df row ∧
              held (dtype_of (restocks <$> J))
                   (astype (value_dtype df (restocks_cols df))
                           (at_label (columns df) row' col')) =
              held (dtype_of (restocks <$> J)) (at_label (columns df) row0 col0)) as HR.
    { exists row', col'. split_and!; [done..|]. by apply Hrestocks. }
    auto.
  - apply long_frame_elem in Hl as (col & row & t & Hcol & Hrow & Ht & ->).
    exists t. rewrite Ey in *. cbn [ids date sales restocks m_ids m_date m_value] in *.
    split; [done|].
    assert (∃ row0 col0, row0 ∈ data df ∧ col0 ∈ sales_cols df ∧
              to_datetime (date_column df (sales_cols df) "_sales")
                          (PyStr.replace "_sales" "" col0) = Some t ∧
              id_tuple df row0 = id_tuple df row ∧
              held (dtype_of (sales <$> J))
                   (astype (value_dtype df (sales_cols df)) (at_label (columns df) row col)) =
              held (dtype_of (sales <$> J)) (at_label (columns df) row0 col0)) as HS.
    { exists row, col. split_and!; [done..|]. by apply Hsales. }
    split; [by left|]. split; [|by left].
    right. split; [by destruct (dtype_of (restocks <$> J))|].
    intros row' col' Hrow' Hcol' Hids Ht'.
    apply (Hno (mkMelted (id_tuple df row') (Some t)
                  (astype (value_dtype df (restocks_cols df))
                          (at_label (columns df) row' col')))).
    + apply long_frame_elem. by exists col', row', t.
    + unfold m_key. cbn [m_ids m_date]. by rewrite Hids.
  - apply long_frame_elem in Hr' as (col & row & t & Hcol & Hrow & Ht & ->).
    exists t. rewrite Ey in *. cbn [ids date sales restocks m_ids m_date m_value] in *.
    split; [done|].
    assert (∃ row0 col0, row0 ∈ data df ∧ col0 ∈ restocks_cols df ∧
              to_datetime (date_column df (restocks_cols df) "_restocks")
                          (PyStr.replace "_restocks" "" col0) = Some t ∧
              id_tuple df row0 = id_tuple df row ∧
              held (dtype_of (restocks <$> J))
                   (astype (value_dtype df (restocks_cols df))
                           (at_label (columns df) row col)) =
              held (dtype_of (restocks <$> J)) (at_label (columns df) row0 col0)) as HR.
    { exists row, col. split_and!; [done..|]. by apply Hrestocks. }
    split; [|split; [by left|by right]].
    right. split; [by destruct (dtype_of (sales <$> J))|].
    intros row' col' Hrow' Hcol' Hids Ht'.
    apply Hno. apply list_elem_of_fmap.
    exists (mkMelted (id_tuple df row') (Some t)
              (astype (value_dtype df (sales_cols df)) (at_label (columns df) row' col'))).
    split.
    + unfold m_key. cbn [m_ids m_date]. by rewrite Hids.
    + apply long_frame_elem. by exists col', row', t.
Qed.

Lemma load_data_values_origin_witness :
  let x := mkRow [Str "A"; Str "v"; Num 1; Str "t"; Str "US"; Str "web"]
                 (Some 1704672000000000000) (Flt (F64.of_Z 5)) (Flt F64.zero) in
  x ∈ (load_data AsciiStr.strip AsciiStr.lower IsoDate.to_datetime (ReadOk sample_frame)).2 ∧
  ∃ t, date x = Some t.
Proof.
  intros x.
  assert (x ∈ (load_data AsciiStr.strip AsciiStr.lower IsoDate.to_datetime
                 (ReadOk sample_frame)).2) as Hx.
  { apply (bool_decide_unpack _). vm_compute. exact I. }
  split; [exact Hx|].
  destruct (load_data_values_origin AsciiStr.strip AsciiStr.lower IsoDate.to_datetime
              sample_frame x Hx) as (t & Ht & _).
  by exists t.
Defined.

(** ** Column names (lines 42-44, 59 and 68) *)

Section ColumnNames.
Import PyStr.

Lemma prefix_app_cases (p t u : string) :
  String.prefix p (t +:+ u) = true →
  String.prefix p t = true ∨ ∃ p2, p = t +:+ p2 ∧ String.prefix p2 u = true.
Proof.
  revert t. induction p as [|a p IH]; intros t; [intros _; left; by destruct t|].
  destruct t as [|b t]; [intros H; right; by exists (String a p)|].
  simpl. destruct (ascii_dec a b) as [->|]; [|done].
  intros [H|(p2 & -> & H)]%IH; [by left|right; by exists p2].
Qed.

Lemma replace_from_skip (k : nat) (old new s : string) :
  (String.length s ≤ k)%nat → replace_from k old new s = EmptyString.
Proof.
  revert k. induction s as [|a s IH]; intros k Hk; [done|].
  simpl in *. destruct k as [|k]; [lia|]. apply IH. lia.
Qed.

Lemma has_char_app (c : ascii) (u v : string) : has_char c (u +:+ String c v) = true.
Proof.
  induction u as [|a u IH]; simpl.
  - by rewrite Ascii.eqb_refl.
  - rewrite IH. apply orb_true_r.
Qed.

Lemma append_nil_l (s : string) : EmptyString +:+ s = s.
Proof. reflexivity. Qed.

Lemma append_cons (a : ascii) (s t : string) : String a s +:+ t = String a (s +:+ t).
Proof. reflexivity. Qed.

Lemma append_nil_r (s : string) : s +:+ EmptyString = s.
Proof. induction s as [|a s IH]; [done|]. by rewrite append_cons, IH. Qed.

(** A name made of a token and a marker, where the token does not contain
    the marker and the marker's first character occurs in it only once. *)
Lemma marker_round_trip (c : ascii) (m token : string) :
  has_char c m = false →
  contains (String c m) token = false →
  contains (String c m) (token +:+ String c m) = true ∧
  replace (String c m) "" (token +:+ String c m) = token.
Proof.
  intros Hc. unfold replace. induction token as [|a t IH]; intros Ht.
  - rewrite append_nil_l. split; [apply orb_true_iff; left; apply prefix_refl|].
    cbn [replace_from]. rewrite prefix_refl, append_nil_l.
    cbn [String.length]. rewrite Nat.sub_succ, Nat.sub_0_r.
    by rewrite replace_from_skip.
  - cbn [contains] in Ht. apply orb_false_iff in Ht as [Hp Ht].
    destruct (IH Ht) as [IH1 IH2]. rewrite append_cons.
    cbn [contains replace_from]. rewrite IH1, orb_true_r. split; [done|].
    assert (String.prefix (String c m) (String a (t +:+ String c m)) = false) as ->.
    { apply not_true_is_false. intros H. cbn [String.prefix] in H, Hp.
      destruct (ascii_dec c a) as [->|]; [|done].
      apply prefix_app_cases in H as [H|(p2 & -> & H)]; [congruence|].
      destruct p2 as [|x p2].
      - rewrite append_nil_r in Hp. by rewrite prefix_refl in Hp.
      - cbn [String.prefix] in H. destruct (ascii_dec x a) as [->|]; [|done].
        by rewrite has_char_app in Hc. }
    by rewrite IH2.
Qed.

End ColumnNames.

(** X15.  For a column named by a token followed by [_sales], where the
    token itself does not contain [_sales], the column is read as a sales
    column and the text handed to the date parser is the token; likewise
    for [_restocks]. *)
Theorem dated_column_token (token : string) :
  (PyStr.contains "_sales" token = false →
   PyStr.contains "_sales" (token +:+ "_sales") = true ∧
   PyStr.replace "_sales" "" (token +:+ "_sales") = token) ∧
  (PyStr.contains "_restocks" token = false →
   PyStr.contains "_restocks" (token +:+ "_restocks") = true ∧
   PyStr.replace "_restocks" "" (token +:+ "_restocks") = token).
Proof. split; by apply marker_round_trip. Qed.

Lemma dated_column_token_witness :
  PyStr.contains "_sales" ("2024-01-01" +:+ "_sales") = true ∧
  PyStr.replace "_sales" "" ("2024-01-01" +:+ "_sales") = "2024-01-01".
Proof.
  destruct (dated_column_token "2024-01-01") as [H _]. apply H. reflexivity.
Defined.

(** ** The sidebar loop (lines 123-152) *)

Section Sidebar.
Variable merged_df : list Row.
Variable multiselect : string → list cell → list cell → list cell.

Lemma sidebar_step_selection (fs : gmap string (list cell)) (field o : string) :
  selection (sidebar_step merged_df multiselect fs field) o =
  if decide (field = o)
  then multiselect field (offered merged_df fs field)
         (filter (λ item, item ∈ offered merged_df fs field) (selection fs field))
  else selection fs o.
Proof.
  unfold sidebar_step. cbv zeta. rewrite selection_insert.
  destruct (decide (field = o)) as [->|Hne].
  - by rewrite selection_insert, decide_True.
  - by rewrite selection_insert, decide_False.
Qed.

(** The rounds of other fields leave the selection of a field alone. *)
Lemma sidebar_loop_other (fields : list string) (fs : gmap string (list cell)) (o : string) :
  o ∉ fields →
  selection (foldl (sidebar_step merged_df multiselect) fs fields) o = selection fs o.
Proof.
  revert fs. induction fields as [|f fields IH]; intros fs; [done|].
  intros [Hne Ho]%not_elem_of_cons. cbn [foldl].
  by rewrite IH, sidebar_step_selection, decide_False.
Qed.

End Sidebar.

(** X16.  The sidebar loop, field by field.  When the turn of a field
    comes, the fields before it hold their final selections and the fields
    after it still hold the selections of the session; the options of the
    field are computed under these, the default handed to the widget is the
    field's old selection pruned to the options, and the field's final
    selection is what the user returns for that field, these options and
    this default.  The options are the values the field takes in the rows
    of the merged frame that pass the selections of the other fields; when
    the user chooses among the options, as the widget enforces, every
    selected value occurs in the merged frame in that field.  Selections
    stored under other keys are left alone. *)
Theorem sidebar_selections (merged_df : list Row)
    (multiselect : string → list cell → list cell → list cell)
    (fs : gmap string (list cell)) (before after : list string) (field : string) :
  filter_fields = before ++ field :: after →
  let final := sidebar merged_df multiselect fs in
  let fs' := foldl (sidebar_step merged_df multiselect) fs before in
  let options := offered merged_df fs' field in
  let default := filter (λ item, item ∈ options) (selection fs field) in
  selection final field = multiselect field options default ∧
  (∀ o, o ∈ before → selection fs' o = selection final o) ∧
  (∀ o, o ∈ field :: after → selection fs' o = selection fs o) ∧
  (∀ v, v ∈ options ↔
        ∃ r, r ∈ merged_df ∧ row_get field r = v ∧
             ∀ o, o ∈ filter_fields → o ≠ field → passes fs' r o) ∧
  ((∀ f options default, multiselect f options default ⊆ options) →
   ∀ v, v ∈ selection final field → ∃ r, r ∈ merged_df ∧ row_get field r = v) ∧
  (∀ o, o ∉ filter_fields → selection final o = selection fs o).
Proof.
  intros Hfields final fs' options default.
  assert (NoDup (before ++ field :: after)) as Hnd.
  { rewrite <- Hfields. apply (bool_decide_unpack _). vm_compute. exact I. }
  apply NoDup_app in Hnd as (Hnd1 & Hdisj & Hnd2).
  apply NoDup_cons in Hnd2 as [Hfield Hnd2].
  assert (field ∉ before) as Hfb by (intros H; apply (Hdisj field H); by left).
  assert (final = foldl (sidebar_step merged_df multiselect)
                    (sidebar_step merged_df multiselect fs' field) after) as Hfinal.
  { unfold final, sidebar. by rewrite Hfields, foldl_app. }
  assert (selection fs' field = selection fs field) as Hold
    by (by apply sidebar_loop_other).
  assert (selection final field = multiselect field options default) as Hsel.
  { rewrite Hfinal, sidebar_loop_other by done.
    rewrite sidebar_step_selection, decide_True by done.
    unfold default, options. by rewrite Hold. }
  split_and!.
  - exact Hsel.
  - intros o Ho. rewrite Hfinal.
    assert (o ∉ field :: after) as Hout by (intros H; by apply (Hdisj o Ho)).
    apply not_elem_of_cons in Hout as [Hne Hout].
    rewrite sidebar_loop_other by done.
    by rewrite sidebar_step_selection, decide_False.
  - intros o Ho. apply sidebar_loop_other. intros H. by apply (Hdisj o H).
  - intros v. apply offered_elem.
  - intros Hms v Hv. rewrite Hsel in Hv. apply Hms in Hv.
    apply offered_elem in Hv as (r & Hr & Hv & _). by exists r.
  - intros o Ho. unfold final, sidebar. by apply sidebar_loop_other.
Qed.

Lemma sidebar_selections_witness :
  let merged_df := (load_data AsciiStr.strip AsciiStr.lower IsoDate.to_datetime (ReadOk sample_frame)).2 in
  let multiselect := λ (f : string) (options default : list cell), default in
  let fs := <["title" := [Str "Z"; Str "A"]]> (<["variation" := [Str "w"]]> init_filters) in
  selection (sidebar merged_df multiselect fs) "variation" =
    multiselect "variation"
      (offered merged_df (sidebar_step merged_df multiselect fs "title") "variation")
      (filter (λ item, item ∈ offered merged_df
                                (sidebar_step merged_df multiselect fs "title") "variation")
              (selection fs "variation")).
Proof.
  intros merged_df multiselect fs.
  destruct (sidebar_selections merged_df multiselect fs ["title"] ["type"; "country"; "channel"]
              "variation" eq_refl) as [H _].
  exact H.
Defined.

(** ** The run as a whole (lines 84-89 and 154-170) *)

Lemma load_data_valid_log (str_strip str_lower : string → string)
    (to_datetime : list string → string → option Z) (raw : DataFrame) :
  missing_columns (normalize_columns str_strip str_lower raw) = [] →
  sales_cols (normalize_columns str_strip str_lower raw) ≠ [] →
  restocks_cols (normalize_columns str_strip str_lower raw) ≠ [] →
  (load_data str_strip str_lower to_datetime (ReadOk raw)).1 =
    [st_write_raw_columns (columns raw);
     st_write_normalized_columns (columns (normalize_columns str_strip str_lower raw))].
Proof.
  intros Hm Hs Hr. unfold load_data, load_frame. cbv zeta.
  change (missing_columns (normalize_columns str_strip str_lower (infer_dtypes raw)))
    with (missing_columns (normalize_columns str_strip str_lower raw)).
  rewrite Hm.
  change (sales_cols (dropna required_columns (normalize_columns str_strip str_lower (infer_dtypes raw))))
    with (sales_cols (normalize_columns str_strip str_lower raw)).
  change (restocks_cols (dropna required_columns (normalize_columns str_strip str_lower (infer_dtypes raw))))
    with (restocks_cols (normalize_columns str_strip str_lower raw)).
  destruct (sales_cols (normalize_columns str_strip str_lower raw)); [done|].
  by destruct (restocks_cols (normalize_columns str_strip str_lower raw)).
Qed.

(** X17.  When the loader returns no row the run ends after the loader's
    messages: no sidebar, no warning, no chart, no table.  For an export
    that passes validation and still yields no row (every row lacks an
    identifier, or no column name gives a date) these messages are the two
    listings of column names, so the page carries no explanation. *)
Theorem script_stops_without_rows (str_strip str_lower : string → string)
    (to_datetime : list string → string → option Z)
    (float_sum : list spec_float → spec_float) (read : read_csv_result)
    (fs : gmap string (list cell))
    (multiselect : string → list cell → list cell → list cell)
    (start_date end_date : Z) (i : interval) :
  (load_data str_strip str_lower to_datetime read).2 = [] →
  script str_strip str_lower to_datetime float_sum read fs multiselect start_date end_date i =
    (load_data str_strip str_lower to_datetime read).1 ∧
  (∀ raw, read = ReadOk raw →
     missing_columns (normalize_columns str_strip str_lower raw) = [] →
     sales_cols (normalize_columns str_strip str_lower raw) ≠ [] →
     restocks_cols (normalize_columns str_strip str_lower raw) ≠ [] →
     script str_strip str_lower to_datetime float_sum read fs multiselect start_date end_date i =
       [st_write_raw_columns (columns raw);
        st_write_normalized_columns (columns (normalize_columns str_strip str_lower raw))]).
Proof.
  intros Hrows.
  assert (script str_strip str_lower to_datetime float_sum read fs multiselect start_date end_date i =
          (load_data str_strip str_lower to_datetime read).1) as Hs.
  { unfold script. destruct (load_data str_strip str_lower to_datetime read) as [log rows].
    simpl in *. by rewrite Hrows. }
  split; [exact Hs|]. intros raw -> Hm Hsales Hrestocks. rewrite Hs.
  by apply load_data_valid_log.
Qed.

Lemma script_stops_without_rows_witness :
  script AsciiStr.strip AsciiStr.lower IsoDate.to_datetime F64.sum
         (ReadOk frame_without_identity) init_filters
         (λ _ _ default, default) 19723 19730 Days7 =
  [st_write_raw_columns (columns frame_without_identity);
   st_write_normalized_columns (columns frame_without_identity)].
Proof.
  destruct (script_stops_without_rows AsciiStr.strip AsciiStr.lower IsoDate.to_datetime
              F64.sum (ReadOk frame_without_identity)
              init_filters (λ _ _ default, default) 19723 19730 Days7) as [_ H].
  - vm_compute. reflexivity.
  - apply (H frame_without_identity eq_refl).
    + vm_compute. reflexivity.
    + vm_compute. discriminate.
    + vm_compute. discriminate.
Defined.

Lemma day_of_normalize (t : Z) : day_of t * day_ns = normalize t.
Proof.
  unfold day_of, normalize. pose proof day_ns_pos.
  pose proof (Z.div_mod t day_ns ltac:(lia)). lia.
Qed.

Lemma foldr_max_spec (t : Z) (ts : list Z) :
  foldr Z.max t ts ∈ t :: ts ∧ ∀ d, d ∈ t :: ts → d ≤ foldr Z.max t ts.
Proof.
  induction ts as [|u ts [IH1 IH2]]; simpl.
  - split; [by left|]. by intros d ->%list_elem_of_singleton.
  - split.
    + destruct (Z.max_spec u (foldr Z.max t ts)) as [[_ ->]|[_ ->]].
      * apply elem_of_cons in IH1 as [->|?]; [by left|by right; right].
      * right; by left.
    + intros d Hd. apply elem_of_cons in Hd as [Hd|Hd].
      * pose proof (IH2 d ltac:(subst; by left)). lia.
      * apply elem_of_cons in Hd as [Hd|Hd]; [lia|].
        pose proof (IH2 d ltac:(by right)). lia.
Qed.

(** X18.  While the user leaves the date range alone, the range runs from
    midnight of the first day to midnight of the last day of the merged
    frame: a row is kept exactly when its date is not later than midnight of
    the last day.  With dates that are calendar dates nothing is dropped. *)
Theorem default_date_range_rows (merged_df : list Row) (start_date end_date : Z) :
  default_date_range merged_df = Some (start_date, end_date) →
  ∃ last, max_date merged_df = Some last ∧
    (∀ r, r ∈ clamp merged_df start_date end_date ↔
          r ∈ merged_df ∧ ∃ t, date r = Some t ∧ t ≤ normalize last) ∧
    ((∀ r, r ∈ merged_df → ∃ t, date r = Some t ∧ t `mod` day_ns = 0) →
     ∀ fs, filtered_df merged_df fs start_date end_date = get_filtered_df merged_df fs).
Proof.
  unfold default_date_range, min_date, max_date, dates.
  destruct (omap date merged_df) as [|t0 ts] eqn:E; [done|].
  intros [= <- <-]. exists (foldr Z.max t0 ts). split; [done|].
  assert (∀ r t, r ∈ merged_df → date r = Some t → t ∈ t0 :: ts) as Hin.
  { intros r t Hr Ht. rewrite <- E. apply list_elem_of_omap. eauto. }
  pose proof (min_date_spec merged_df t0) as Hmin.
  unfold min_date, dates in Hmin. rewrite E in Hmin.
  destruct (Hmin ltac:(by left)) as (lo & [= <-] & _ & Hlo).
  destruct (foldr_max_spec t0 ts) as [Hmax1 Hmax2].
  pose proof (normalize_bounds (foldr Z.min t0 ts)) as [Hn _].
  assert (∀ r, r ∈ clamp merged_df (day_of (foldr Z.min t0 ts)) (day_of (foldr Z.max t0 ts)) ↔
            r ∈ merged_df ∧ ∃ t, date r = Some t ∧ t ≤ normalize (foldr Z.max t0 ts))
    as Hclamp.
  { intros r. unfold clamp. rewrite list_elem_of_filter, in_range_spec.
    unfold timestamp_of_day. rewrite !day_of_normalize. split.
    - intros [(t & Ht & H) Hr]. split; [done|]. exists t. split; [done|lia].
    - intros [Hr (t & Ht & H)]. split; [|done]. exists t. split; [done|].
      pose proof (Hlo t (Hin r t Hr Ht)). lia. }
  split; [exact Hclamp|].
  intros Hcal fs. unfold filtered_df.
  rewrite clamp_get_filtered_df.
  f_equal. symmetry. rewrite <- (filter_all (λ _, True) merged_df) at 1 by done.
  unfold clamp. apply filter_iff_in. intros r Hr. split; [intros _|done].
  assert (r ∈ clamp merged_df (day_of (foldr Z.min t0 ts)) (day_of (foldr Z.max t0 ts)))
    as [Hk _]%list_elem_of_filter; [|exact Hk].
  apply Hclamp. split; [done|]. destruct (Hcal r Hr) as (t & Ht & _).
  exists t. split; [done|].
  assert (foldr Z.max t0 ts ∈ omap date merged_df) as Hm by (by rewrite E).
  apply list_elem_of_omap in Hm as (r' & Hr' & Hd').
  destruct (Hcal r' Hr') as (t' & Ht' & Hmid').
  assert (t' = foldr Z.max t0 ts) as -> by congruence.
  rewrite (normalize_midnight _ Hmid'). exact (Hmax2 t (Hin r t Hr Ht)).
Qed.

Lemma default_date_range_rows_witness :
  let merged_df := (load_data AsciiStr.strip AsciiStr.lower IsoDate.to_datetime (ReadOk sample_frame)).2 in
  filtered_df merged_df init_filters 19723 19730 = get_filtered_df merged_df init_filters.
Proof.
  intros merged_df.
  destruct (default_date_range_rows merged_df 19723 19730) as (last & _ & _ & H).
  - vm_compute. reflexivity.
  - apply H. intros r Hr.
    assert (forallb (λ r, match date r with
                          | Some t => t `mod` day_ns =? 0
                          | None => false
                          end) merged_df = true) as Hall
      by (vm_compute; reflexivity).
    apply list_elem_of_In in Hr.
    pose proof (proj1 (forallb_forall _ _) Hall r Hr) as Hr'. cbv beta in Hr'.
    destruct (date r) as [t|]; [|discriminate].
    exists t. split; [reflexivity|]. by apply Z.eqb_eq.
Defined.

(** ** How often a key occurs after the join (lines 72-73) *)

Section Multiplicity.
Variable k : list cell * option Z.

Lemma filter_Forall_all {A} (P : A → Prop) `{∀ x, Decision (P x)} (l : list A) :
  Forall P l → filter P l = l.
Proof.
  induction 1 as [|x l Hx Hl IH]; [done|]. by rewrite filter_cons_True, IH.
Qed.

Lemma filter_Forall_none {A} (P : A → Prop) `{∀ x, Decision (P x)} (l : list A) :
  Forall (λ x, ¬ P x) l → filter P l = [].
Proof.
  induction 1 as [|x l Hx Hl IH]; [done|]. by rewrite filter_cons_False.
Qed.

Lemma join_rows_left_count (left right : list (melted (option Z))) :
  length (filter (λ x, row_key x = k)
    (flat_map (λ l,
      match filter (λ r, m_key r = m_key l) right with
      | [] => [mkRow (m_ids l) (m_date l) (m_value l) NaN]
      | partners => (λ r, mkRow (m_ids l) (m_date l) (m_value l) (m_value r)) <$> partners
      end) left)) =
  (length (filter (λ l, m_key l = k) left) *
   Nat.max 1 (length (filter (λ r, m_key r = k) right)))%nat.
Proof.
  induction left as [|l ls IH]; [done|].
  cbn [flat_map]. rewrite filter_app, length_app, IH, filter_cons. clear IH.
  set (block := match filter (λ r, m_key r = m_key l) right with
                | [] => [mkRow (m_ids l) (m_date l) (m_value l) NaN]
                | partners =>
                    (λ r, mkRow (m_ids l) (m_date l) (m_value l) (m_value r)) <$> partners
                end).
  assert (Forall (λ x, row_key x = m_key l) block) as Hkeys.
  { unfold block. destruct (filter _ right) as [|p ps].
    - by repeat constructor.
    - apply Forall_fmap, Forall_forall. by intros r _. }
  assert (length block = Nat.max 1 (length (filter (λ r, m_key r = m_key l) right)))
    as Hlen.
  { unfold block. destruct (filter _ right) as [|p ps]; [done|].
    rewrite length_fmap. cbn [length]. lia. }
  destruct (decide (m_key l = k)) as [Hk|Hk].
  - rewrite filter_Forall_all, Hlen.
    + rewrite Hk. cbn [length]. lia.
    + eapply Forall_impl; [exact Hkeys|]. intros x Hx. by rewrite Hx.
  - rewrite filter_Forall_none; [cbn [length]; lia|].
    eapply Forall_impl; [exact Hkeys|]. intros x Hx. by rewrite Hx.
Qed.

Lemma join_rows_right_count (left right : list (melted (option Z))) :
  length (filter (λ x, row_key x = k)
    ((λ r, mkRow (m_ids r) (m_date r) NaN (m_value r)) <$>
     filter (λ r, m_key r ∉ m_key <$> left) right)) =
  if decide (length (filter (λ l, m_key l = k) left) = 0)%nat
  then length (filter (λ r, m_key r = k) right) else 0%nat.
Proof.
  rewrite filter_fmap, length_fmap, list_filter_filter.
  destruct (decide (length (filter (λ l, m_key l = k) left) = 0)%nat) as [H0|H0].
  - f_equal. apply list_filter_iff. intros r. split; [tauto|]. intros Hr.
    split; [done|]. intros (l & Hl & Hin)%list_elem_of_fmap.
    apply length_zero_iff_nil in H0.
    assert (l ∈ filter (λ l, m_key l = k) left) as Hl'
      by (apply list_elem_of_filter; split; [by rewrite <- Hl|done]).
    rewrite H0 in Hl'. by apply elem_of_nil in Hl'.
  - rewrite filter_Forall_none; [done|]. apply Forall_forall. intros r _ [Hr Hout].
    apply Hout. destruct (filter (λ l, m_key l = k) left) as [|l ls] eqn:E; [done|].
    assert (l ∈ filter (λ l, m_key l = k) left) as [Hl Hin]%list_elem_of_filter
      by (rewrite E; by left).
    apply list_elem_of_fmap. exists l. split; [|done]. rewrite Hl. exact Hr.
Qed.

Lemma map_metrics_count (f g : cell → cell) (l : list Row) :
  length (filter (λ x, row_key x = k) (map_metrics f g <$> l)) =
  length (filter (λ x, row_key x = k) l).
Proof. by rewrite filter_fmap, length_fmap. Qed.

Lemma merge_outer_count (left right : list (melted (option Z))) :
  let m := length (filter (λ l, m_key l = k) left) in
  let n := length (filter (λ r, m_key r = k) right) in
  length (filter (λ x, row_key x = k) (fill_metrics (merge_outer left right))) =
  if decide (m = 0)%nat then n else if decide (n = 0)%nat then m else (m * n)%nat.
Proof.
  intros m n. subst m n. unfold fill_metrics, merge_outer.
  rewrite !map_metrics_count.
  unfold join_rows. rewrite filter_app, length_app.
  rewrite join_rows_left_count, join_rows_right_count.
  generalize (length (filter (λ l, m_key l = k) left)) as m.
  generalize (length (filter (λ r, m_key r = k) right)) as n. intros n m.
  destruct (Nat.max_spec 1 n) as [[? ->]|[? ->]];
    destruct (decide (m = 0)%nat), (decide (n = 0)%nat); nia.
Qed.

End Multiplicity.

(** X19.  The join pairs every sales row of a key with every restocks row
    of the same key: with [m] rows in the long sales frame and [n] in the
    long restocks frame for one identifier tuple and date, the returned
    frame has [m * n] rows for it, or [m + n] when one of the two is 0. *)
Theorem load_data_key_multiplicity (str_strip str_lower : string → string)
    (to_datetime : list string → string → option Z) (raw : DataFrame)
    (k : list cell * option Z) :
  let df := dropna required_columns (normalize_columns str_strip str_lower (infer_dtypes raw)) in
  let m := length (filter (λ l, m_key l = k) (sales_df to_datetime df)) in
  let n := length (filter (λ r, m_key r = k) (restocks_df to_datetime df)) in
  missing_columns (normalize_columns str_strip str_lower raw) = [] →
  sales_cols df ≠ [] → restocks_cols df ≠ [] →
  length (filter (λ x, row_key x = k) (load_data str_strip str_lower to_datetime (ReadOk raw)).2) =
  if decide (m = 0)%nat then n else if decide (n = 0)%nat then m else (m * n)%nat.
Proof.
  intros df m n Hm Hs Hr.
  rewrite (load_frame_rows str_strip str_lower to_datetime raw Hm Hs Hr).
  apply merge_outer_count.
Qed.

Lemma load_data_key_multiplicity_witness :
  length (filter (λ x, row_key x =
                       ([Str "A"; Str "v"; Num 1; Str "t"; Str "US"; Str "web"],
                        Some 1704067200000000000))
                 (load_data AsciiStr.strip AsciiStr.lower IsoDate.to_datetime (ReadOk frame_repeated_item)).2) = 4%nat.
Proof.
  rewrite (load_data_key_multiplicity AsciiStr.strip AsciiStr.lower IsoDate.to_datetime
             frame_repeated_item).
  - vm_compute. reflexivity.
  - vm_compute. reflexivity.
  - vm_compute. discriminate.
  - vm_compute. discriminate.
Defined.
